(** * tsickle-loader: the webpack loader of [src/index.ts]

    A shallow embedding of the loader pipeline ([setup], [handleDiagnostics],
    [tsickleLoader]) together with the theorems that relate it to its
    natural-language specification.

    JavaScript strings are modelled as [string], the insertion-ordered
    [Map<string, string>] of emitted files as an association list, the
    [externs] object returned by tsickle and the files of the disk as
    [gmap string string].  The calls the loader makes to its collaborators
    (fs-extra, typescript, tsickle, the webpack loader context) are recorded,
    in program order, in a trace of [Event]s. *)

From stdpp Require Import base option list strings gmap.
From Stdlib Require Import ZArith Lia.

Local Open Scope Z_scope.

(** ** JavaScript string primitives used by the loader *)

Module JsString.

(** [s.indexOf(pat)]: the least index at which [pat] occurs in [s],
    [-1] when it does not occur. *)
Fixpoint indexOfFrom (i : Z) (s pat : string) : Z :=
  if String.prefix pat s then i
  else match s with
       | EmptyString => -1
       | String _ s' => indexOfFrom (i + 1) s' pat
       end.

Definition indexOf (s pat : string) : Z := indexOfFrom 0 s pat.

(** [s.replace(/\\/g, "/")]: every backslash becomes a forward slash. *)
Definition backslash : Ascii.ascii := Ascii.ascii_of_nat 92.
Definition slash : Ascii.ascii := Ascii.ascii_of_nat 47.

Fixpoint replaceBackslashes (s : string) : string :=
  match s with
  | EmptyString => EmptyString
  | String c s' =>
      String (if Ascii.eqb c backslash then slash else c)
             (replaceBackslashes s')
  end.

(** [pat] occurs in [s]: the relation that [indexOf] decides. *)
Definition occursIn (pat s : string) : Prop :=
  exists pre post : string, s = pre +:+ pat +:+ post.

End JsString.

(** ** The insertion-ordered [Map<string, string>] of JavaScript *)

Module JsMap.

Definition t : Type := list (string * string).

Definition empty : t := [].

(** [m.set(k, v)]: an existing key keeps its position and takes the new
    value, a new key goes to the end. *)
Fixpoint set (m : t) (k v : string) : t :=
  match m with
  | [] => [(k, v)]
  | (k', v') :: m' =>
      if String.eqb k' k then (k', v) :: m' else (k', v') :: set m' k v
  end.

End JsMap.

(** ** Data of the collaborators *)

(** [ts.DiagnosticCategory]. *)
Inductive DiagnosticCategory : Type :=
| Warning
| Error
| Suggestion
| Message.

(** [ts.Diagnostic], reduced to severity, message and source location. *)
Record Diagnostic : Type := mkDiagnostic {
  category : DiagnosticCategory;
  messageText : string;
  file : option string;
  start : option Z
}.

Definition isError (d : Diagnostic) : bool :=
  match category d with Error => true | _ => false end.

Definition isWarning (d : Diagnostic) : bool :=
  match category d with Warning => true | _ => false end.

(** [ts.FormatDiagnosticsHost]. *)
Record FormatDiagnosticsHost : Type := mkFormatHost {
  getNewLine : string;
  getCanonicalFileName : string -> string;
  getCurrentDirectory : string
}.

(** [Tsickle.TsickleHost]: the policy object handed to the transformer.
    [logWarning] and [moduleResolutionHost] are callbacks into the loader and
    are accounted for by [EmitCallback] below. *)
Record TsickleHost : Type := mkTsickleHost {
  shouldSkipTsickleProcessing : string -> bool;
  shouldIgnoreWarningsForPath : string -> bool;
  pathToModuleName : string -> string;
  fileNameToModuleId : string -> string;
  es5Mode : bool;
  googmodule : bool;
  transformDecorators : bool;
  transformTypesToClosure : bool;
  typeBlackListPaths : gset string;
  untyped : bool
}.

(** What [Tsickle.emit] does to the loader while it runs: it calls the
    [writeFile] sink and the [logWarning] policy callback, in some order. *)
Inductive EmitCallback : Type :=
| CbWriteFile (path contents : string)
| CbLogWarning (warning : Diagnostic).

(** The value [Tsickle.emit] returns, with the callbacks it made. *)
Record EmitResult : Type := mkEmitResult {
  callbacks : list EmitCallback;
  externs : gmap string string
}.

(** [OptionObject] of [loader-utils.d.ts]: values are
    [null | false | true | string]. *)
Inductive OptionValue : Type :=
| ONull
| OBool (b : bool)
| OString (s : string).

(** [LoaderCTX]; [query] is what [getOptions] reads, [emitError] and
    [emitWarning] are recorded as events. *)
Record LoaderCTX : Type := mkLoaderCTX {
  resourcePath : string;
  query : gmap string OptionValue
}.

(** The disk, as far as the loader touches it. *)
Record FileSystem : Type := mkFileSystem {
  dirs : gset string;
  files : gmap string string
}.

(** The collaborators of the loader that are not part of [src/index.ts]:
    node's [os] and [path], the typescript front-end, tsickle, and the
    modules [./path-utils] and [./fix-output] of this package. *)
Record Externals : Type := mkExternals {
  Json : Type;
  CompilerOptions : Type;
  Program : Type;
  EOL : string;
  path_resolve : string -> string -> string;
  path_dirname : string -> string;
  (* [None]: the call throws *)
  ts_readConfigFile : string -> (string -> option string) -> option Json;
  ts_parseJsonConfigFileContent :
    Json -> string -> string -> option CompilerOptions;
  ts_createProgram :
    gmap string string -> list string -> CompilerOptions -> Program;
  ts_getPreEmitDiagnostics : Program -> list Diagnostic;
  ts_formatDiagnosticsWithColorAndContext :
    list Diagnostic -> FormatDiagnosticsHost -> string;
  Tsickle_emit : Program -> TsickleHost -> EmitResult;
  tsToJS : string -> string;
  jsToTS : string -> string;
  fixCode : string -> string;
  fixExtern : string -> string
}.

(** ** Effects: exceptions, the disk, and the trace of calls *)

Inductive Exception : Type :=
| ValidationError
| TypeError
| ConfigError
| FsError (code : string).

Inductive Event : Type :=
| EvEnsureDir (dir : string)
| EvReadConfigFile (tsconfig : string)
| EvCreateProgram (rootNames : list string)
| EvGetPreEmitDiagnostics
| EvTsickleEmit
| EvAppendFile (path data : string)
| EvEmitError (message : string)
| EvEmitWarning (message : string).

Inductive Outcome (A : Type) : Type :=
| Ok (a : A)
| Throw (e : Exception).

Arguments Ok {A} a.
Arguments Throw {A} e.

(** A computation of the loader: it runs on a disk and yields an outcome,
    the disk afterwards, and the calls it made. *)
Definition Loader (A : Type) : Type :=
  FileSystem -> Outcome A * FileSystem * list Event.

#[export] Instance Loader_ret : MRet Loader :=
  fun A (a : A) fs => (Ok a, fs, []).

#[export] Instance Loader_bind : MBind Loader :=
  fun A B (k : A -> Loader B) (m : Loader A) fs =>
    match m fs with
    | (Ok a, fs1, t1) =>
        match k a fs1 with
        | (r, fs2, t2) => (r, fs2, t1 ++ t2)
        end
    | (Throw e, fs1, t1) => (Throw e, fs1, t1)
    end.

Definition throw {A : Type} (e : Exception) : Loader A :=
  fun fs => (Throw e, fs, []).

Definition tell (ev : Event) : Loader unit :=
  fun fs => (Ok tt, fs, [ev]).

Definition getFiles : Loader (gmap string string) :=
  fun fs => (Ok (files fs), fs, []).

(** The directories on the way to [rest]: each prefix of the path that ends
    just before a ["/"] and is not empty or itself ended by one.  Paths are
    read with ["/"] as the separator. *)
Fixpoint ancestors (prefix : string) (afterSeparator : bool) (rest : string)
    : list string :=
  match rest with
  | EmptyString => []
  | String c rest' =>
      let separator := Ascii.eqb c JsString.slash in
      (if separator && negb afterSeparator then [prefix] else []) ++
      ancestors (prefix +:+ String c EmptyString) separator rest'
  end.

(** What [mkdir -p dir] makes sure of: the ancestors of [dir], then [dir]. *)
Definition dirsToEnsure (dir : string) : list string :=
  ancestors EmptyString true dir ++ [dir].

(** Why [fs.ensureDirSync(dir)] fails on a disk, if it does: [dir] is the
    empty path (ENOENT), a file stands at an ancestor of [dir] (ENOTDIR) or
    at [dir] itself (EEXIST).  Paths are compared as strings. *)
Definition mkdirFault (fs : FileSystem) (dir : string) : option string :=
  if String.eqb dir EmptyString then Some "ENOENT"%string
  else if existsb (fun d => bool_decide (is_Some (files fs !! d)))
                  (ancestors EmptyString true dir)
  then Some "ENOTDIR"%string
  else if bool_decide (is_Some (files fs !! dir))
       then Some "EEXIST"%string
       else None.

(** The disk after a successful [fs.ensureDirSync(dir)]. *)
Definition withDir (dir : string) (fs : FileSystem) : FileSystem :=
  {| dirs := list_to_set (dirsToEnsure dir) ∪ dirs fs; files := files fs |}.

(** [fs.ensureDirSync(dir)] of fs-extra, a recursive [mkdir]: it creates
    [dir] and its missing ancestors, and throws when a file is in the way.
    Faults that the disk does not show (permissions, a read-only volume) are
    outside this model. *)
Definition ensureDirSync (dir : string) : Loader unit :=
  fun fs =>
    match mkdirFault fs dir with
    | Some code => (Throw (FsError code), fs, [EvEnsureDir dir])
    | None => (Ok tt, withDir dir fs, [EvEnsureDir dir])
    end.

(** [fs.appendFileSync(path, data)]: a missing file is created.  The path
    is taken to be appendable; a directory or an unwritable file at [path],
    on which the call throws, is outside this model. *)
Definition appendFileSync (path data : string) : Loader unit :=
  fun fs =>
    (Ok tt,
     {| dirs := dirs fs;
        files := <[path := default EmptyString (files fs !! path) +:+ data]>
                   (files fs) |},
     [EvAppendFile path data]).

Definition emitError (ctx : LoaderCTX) (message : string) : Loader unit :=
  tell (EvEmitError message).

Definition emitWarning (ctx : LoaderCTX) (message : string) : Loader unit :=
  tell (EvEmitWarning message).

(** ** [src/index.ts] *)

Definition LOADER_NAME : string := "tsickle-loader".
Definition DEFAULT_EXTERN_DIR : string := "dist/externs".
Definition EXTERNS_FILE_NAME : string := "externs.js".
Definition DEFAULT_CONFIG_FILE : string := "tsconfig.json".

(** The part of JSON Schema that [optionsSchema] uses: an object whose
    listed properties, when present, have the given type; no property is
    required and other properties are allowed. *)
Inductive JsonType : Type :=
| TString
| TBoolean
| TNull.

Definition optionsSchema : list (string * JsonType) :=
  [("tsconfig"%string, TString); ("externDir"%string, TString)].

Definition hasType (v : OptionValue) (t : JsonType) : bool :=
  match v, t with
  | OString _, TString => true
  | OBool _, TBoolean => true
  | ONull, TNull => true
  | _, _ => false
  end.

Definition conforms (schema : list (string * JsonType))
    (options : gmap string OptionValue) : bool :=
  forallb (fun p : string * JsonType =>
             match options !! p.1 with
             | Some v => hasType v p.2
             | None => true
             end) schema.

(** [validate(schema, options, { name })] of schema-utils: throws on a
    violation. *)
Definition validate (schema : list (string * JsonType))
    (options : gmap string OptionValue) : Loader unit :=
  if conforms schema options then mret tt else throw ValidationError.

(** [getOptions(loaderCTX)] of loader-utils. *)
Definition getOptions (loaderCTX : LoaderCTX) : gmap string OptionValue :=
  query loaderCTX.

(** [v ?? d]: [d] when [v] is [undefined] or [null]. *)
Definition nullish (v : option OptionValue) (d : string) : OptionValue :=
  match v with
  | None | Some ONull => OString d
  | Some x => x
  end.

(** node's [path] and [fs] accept only strings where a path is expected. *)
Definition asPath (v : OptionValue) : Loader string :=
  match v with
  | OString s => mret s
  | _ => throw TypeError
  end.

(** [OptionsFromSchema]; of [compilerConfig], the parsed command line, the
    loader reads the [options] only, and that is what the field holds. *)
Record OptionsFromSchema (E : Externals) : Type := mkOptionsFromSchema {
  externDir : string;
  tsconfig : string;
  externFile : string;
  compilerConfig : CompilerOptions E
}.

Arguments externDir {E} _.
Arguments tsconfig {E} _.
Arguments externFile {E} _.
Arguments compilerConfig {E} _.

Definition setup (E : Externals) (loaderCTX : LoaderCTX)
    : Loader (OptionsFromSchema E) :=
  let options := getOptions loaderCTX in
  validate optionsSchema options;;
  externDir ← asPath (nullish (options !! "externDir"%string)
                               DEFAULT_EXTERN_DIR);
  let externFile := path_resolve E externDir EXTERNS_FILE_NAME in
  ensureDirSync externDir;;
  tsconfig ← asPath (nullish (options !! "tsconfig"%string)
                              DEFAULT_CONFIG_FILE);
  disk ← getFiles;
  tell (EvReadConfigFile tsconfig);;
  match ts_readConfigFile E tsconfig (fun configPath => disk !! configPath)
  with
  | None => throw ConfigError
  | Some config =>
      match ts_parseJsonConfigFileContent E config "."%string tsconfig with
      | None => throw ConfigError
      | Some compilerConfig =>
          mret {| tsconfig := tsconfig;
                  externDir := externDir;
                  externFile := externFile;
                  compilerConfig := compilerConfig |}
      end
  end.

Inductive DiagnosticsType : Type :=
| AsError
| AsWarning.

Definition handleDiagnostics (E : Externals) (ctx : LoaderCTX)
    (diagnostics : list Diagnostic) (diagnosticHost : FormatDiagnosticsHost)
    (type : DiagnosticsType) : Loader unit :=
  let formatted :=
    ts_formatDiagnosticsWithColorAndContext E diagnostics diagnosticHost in
  match type with
  | AsError => emitError ctx formatted
  | AsWarning => emitWarning ctx formatted
  end.

(** The [tsickleHost] literal of [tsickleLoader]. *)
Definition tsickleHost (sourceFileName : string) : TsickleHost :=
  {| shouldSkipTsickleProcessing :=
       fun filename => negb (String.eqb sourceFileName filename);
     shouldIgnoreWarningsForPath := fun _ => false;
     pathToModuleName := fun name => name;
     fileNameToModuleId := fun name => name;
     es5Mode := true;
     googmodule := false;
     transformDecorators := true;
     transformTypesToClosure := true;
     typeBlackListPaths := ∅;
     untyped := false |}.

(** [Tsickle.emit(program, tsickleHost, writeFile)] seen from the loader:
    each [writeFile] call is [jsFiles.set(path, contents)], each
    [logWarning] call is [handleDiagnostics(this, [warning], host, "warning")]. *)
Fixpoint runEmitCallbacks (E : Externals) (ctx : LoaderCTX)
    (diagnosticsHost : FormatDiagnosticsHost) (cbs : list EmitCallback)
    (jsFiles : JsMap.t) : Loader JsMap.t :=
  match cbs with
  | [] => mret jsFiles
  | CbWriteFile path contents :: cbs' =>
      runEmitCallbacks E ctx diagnosticsHost cbs'
                       (JsMap.set jsFiles path contents)
  | CbLogWarning warning :: cbs' =>
      handleDiagnostics E ctx [warning] diagnosticsHost AsWarning;;
      runEmitCallbacks E ctx diagnosticsHost cbs' jsFiles
  end.

(** The [for (const [path, source] of jsFiles)] loop.  [Some fixed] is the
    [return fixed] of the body, [None] is the loop running to its end. *)
Fixpoint forOfJsFiles (E : Externals) (externFile : string)
    (output : EmitResult) (sourceFileAsJs : string) (entries : JsMap.t)
    : Loader (option string) :=
  match entries with
  | [] => mret None
  | (path, source) :: rest =>
      if JsString.indexOf sourceFileAsJs path =? -1
      then forOfJsFiles E externFile output sourceFileAsJs rest
      else
        let tsPathName := jsToTS E path in
        let extern := externs output !! tsPathName in
        match extern with
        | Some extern => appendFileSync externFile (fixExtern E extern)
        | None => mret tt
        end;;
        let fixed := fixCode E source in
        mret (Some fixed)
  end.

(** The loader.  Its result is [Some code] for [return fixed] and [None]
    where the function returns [undefined].  The parameter [source] is
    shadowed, inside the loop, by the loop variable of the same name.
    [ts.createCompilerHost(options)] has no effect of its own and is folded
    into [ts_createProgram], which reads the disk on its behalf. *)
Definition tsickleLoader (E : Externals) (this : LoaderCTX)
    (source : string) : Loader (option string) :=
  cfg ← setup E this;
  let options := compilerConfig cfg in
  let externFile := externFile cfg in
  let sourceFileName := JsString.replaceBackslashes (resourcePath this) in
  disk ← getFiles;
  tell (EvCreateProgram [sourceFileName]);;
  let program := ts_createProgram E disk [sourceFileName] options in
  tell EvGetPreEmitDiagnostics;;
  let diagnostics := ts_getPreEmitDiagnostics E program in
  let diagnosticsHost :=
    {| getNewLine := EOL E;
       getCanonicalFileName := fun fileName => fileName;
       getCurrentDirectory := path_dirname E sourceFileName |} in
  if 0 <? Z.of_nat (length diagnostics) then
    handleDiagnostics E this diagnostics diagnosticsHost AsError;;
    mret None
  else
    let tsickleHost := tsickleHost sourceFileName in
    tell EvTsickleEmit;;
    let output := Tsickle_emit E program tsickleHost in
    jsFiles ← runEmitCallbacks E this diagnosticsHost (callbacks output)
                               JsMap.empty;
    let sourceFileAsJs := tsToJS E sourceFileName in
    returned ← forOfJsFiles E externFile output sourceFileAsJs jsFiles;
    match returned with
    | Some fixed => mret (Some fixed)
    | None =>
        emitError this
          ("missing compiled result for source file: " +:+ sourceFileName);;
        mret None
    end.

(** ** Views of one invocation

    Names for the intermediate values of [tsickleLoader], so that statements
    can speak about them. *)

Definition outcomeOf {A : Type} (r : Outcome A * FileSystem * list Event)
    : Outcome A := r.1.1.

Definition diskOf {A : Type} (r : Outcome A * FileSystem * list Event)
    : FileSystem := r.1.2.

Definition traceOf {A : Type} (r : Outcome A * FileSystem * list Event)
    : list Event := r.2.

(** The value of a string option, with its default. *)
Definition settingOf (options : gmap string OptionValue) (key fallback : string)
    : string :=
  match options !! key with
  | Some (OString s) => s
  | _ => fallback
  end.

(** The normalized [SourceUnit] path: [sourceFileName]. *)
Definition sourceFileNameOf (ctx : LoaderCTX) : string :=
  JsString.replaceBackslashes (resourcePath ctx).

(** [program], built from the disk that [setup] leaves. *)
Definition programOf (E : Externals) (ctx : LoaderCTX)
    (cfg : OptionsFromSchema E) (fs1 : FileSystem) : Program E :=
  ts_createProgram E (files fs1) [sourceFileNameOf ctx] (compilerConfig cfg).

(** [diagnostics]: the pre-emission diagnostic set. *)
Definition diagnosticsOf (E : Externals) (ctx : LoaderCTX)
    (cfg : OptionsFromSchema E) (fs1 : FileSystem) : list Diagnostic :=
  ts_getPreEmitDiagnostics E (programOf E ctx cfg fs1).

Definition diagnosticsHostOf (E : Externals) (ctx : LoaderCTX)
    : FormatDiagnosticsHost :=
  {| getNewLine := EOL E;
     getCanonicalFileName := fun fileName => fileName;
     getCurrentDirectory := path_dirname E (sourceFileNameOf ctx) |}.

(** [output]: what [Tsickle.emit] returns under the loader's policy. *)
Definition outputOf (E : Externals) (ctx : LoaderCTX)
    (cfg : OptionsFromSchema E) (fs1 : FileSystem) : EmitResult :=
  Tsickle_emit E (programOf E ctx cfg fs1) (tsickleHost (sourceFileNameOf ctx)).

(** The map that the [writeFile] sink has built when [Tsickle.emit] is done. *)
Fixpoint writtenFiles (cbs : list EmitCallback) (jsFiles : JsMap.t) : JsMap.t :=
  match cbs with
  | [] => jsFiles
  | CbWriteFile path contents :: cbs' =>
      writtenFiles cbs' (JsMap.set jsFiles path contents)
  | CbLogWarning _ :: cbs' => writtenFiles cbs' jsFiles
  end.

(** The warnings that [Tsickle.emit] logged, in order. *)
Fixpoint loggedWarnings (cbs : list EmitCallback) : list Diagnostic :=
  match cbs with
  | [] => []
  | CbWriteFile _ _ :: cbs' => loggedWarnings cbs'
  | CbLogWarning w :: cbs' => w :: loggedWarnings cbs'
  end.

(** [jsFiles] at the start of the selection loop: the spec's [codeByPath]. *)
Definition codeByPath (E : Externals) (ctx : LoaderCTX)
    (cfg : OptionsFromSchema E) (fs1 : FileSystem) : JsMap.t :=
  writtenFiles (callbacks (outputOf E ctx cfg fs1)) JsMap.empty.

(** The expected emitted-code path: [sourceFileAsJs]. *)
Definition sourceFileAsJsOf (E : Externals) (ctx : LoaderCTX) : string :=
  tsToJS E (sourceFileNameOf ctx).

(** The entry at which the selection loop stops, if any. *)
Definition selectOutput (sourceFileAsJs : string) (jsFiles : JsMap.t)
    : option (string * string) :=
  find (fun entry : string * string =>
          negb (JsString.indexOf sourceFileAsJs entry.1 =? -1)) jsFiles.

(** What [setup] returns on options that conform to the schema. *)
Definition setupOutcome (E : Externals) (ctx : LoaderCTX) (fs : FileSystem)
    : Outcome (OptionsFromSchema E) :=
  let dir := settingOf (query ctx) "externDir" DEFAULT_EXTERN_DIR in
  let tsc := settingOf (query ctx) "tsconfig" DEFAULT_CONFIG_FILE in
  match ts_readConfigFile E tsc (fun configPath => files fs !! configPath) with
  | None => Throw ConfigError
  | Some config =>
      match ts_parseJsonConfigFileContent E config "."%string tsc with
      | None => Throw ConfigError
      | Some cc =>
          Ok {| tsconfig := tsc;
                externDir := dir;
                externFile := path_resolve E dir EXTERNS_FILE_NAME;
                compilerConfig := cc |}
      end
  end.

(** What the selection loop does with the entry it stops at. *)
Definition loopOutcome (E : Externals) (externFile : string) (output : EmitResult)
    (selected : option (string * string)) (fs : FileSystem)
    : Outcome (option string) * FileSystem * list Event :=
  match selected with
  | None => (Ok None, fs, [])
  | Some (path, source) =>
      match externs output !! jsToTS E path with
      | Some extern =>
          (Ok (Some (fixCode E source)),
           {| dirs := dirs fs;
              files := <[externFile :=
                           default EmptyString (files fs !! externFile)
                           +:+ fixExtern E extern]> (files fs) |},
           [EvAppendFile externFile (fixExtern E extern)])
      | None => (Ok (Some (fixCode E source)), fs, [])
      end
  end.

(** The events by which the warnings logged by [Tsickle.emit] reach the
    host. *)
Definition warningEvents (E : Externals) (ctx : LoaderCTX)
    (cfg : OptionsFromSchema E) (fs1 : FileSystem) : list Event :=
  map (fun w => EvEmitWarning
                  (ts_formatDiagnosticsWithColorAndContext
                     E [w] (diagnosticsHostOf E ctx)))
      (loggedWarnings (callbacks (outputOf E ctx cfg fs1))).

(** The message of the error raised when the loop selects nothing. *)
Definition missingMessage (ctx : LoaderCTX) : string :=
  "missing compiled result for source file: " +:+ sourceFileNameOf ctx.

(** The calls made between [setup] and the diagnostic gate. *)
Definition frontEndEvents (ctx : LoaderCTX) : list Event :=
  [EvCreateProgram [sourceFileNameOf ctx]; EvGetPreEmitDiagnostics].


(** Projections of a trace. *)
Definition emittedErrors (t : list Event) : list string :=
  omap (fun ev => match ev with EvEmitError m => Some m | _ => None end) t.

Definition emittedWarnings (t : list Event) : list string :=
  omap (fun ev => match ev with EvEmitWarning m => Some m | _ => None end) t.

Definition appended (t : list Event) : list (string * string) :=
  omap (fun ev => match ev with
                  | EvAppendFile p d => Some (p, d)
                  | _ => None
                  end) t.

(** The invocation stopped at the diagnostic gate: it returned [undefined]
    and never reached [Tsickle.emit]. *)
Definition abortedAtGate (r : Outcome (option string) * FileSystem * list Event)
    : Prop :=
  outcomeOf r = Ok None /\ ~ In EvTsickleEmit (traceOf r).


(** ** The specification's wording, for comparison *)

Module Spec.

(** "the first entry of codeByPath, in iteration order, whose key contains
    this expected path as a substring ... is what the pipeline returns
    (after fixing)". *)
Definition selectsFirstKeyContainingExpected (E : Externals) (ctx : LoaderCTX)
    (source : string) (fs : FileSystem) : Prop :=
  forall cfg fs1 t1 before key text after,
    setup E ctx fs = (Ok cfg, fs1, t1) ->
    diagnosticsOf E ctx cfg fs1 = [] ->
    codeByPath E ctx cfg fs1 = before ++ (key, text) :: after ->
    JsString.occursIn (sourceFileAsJsOf E ctx) key ->
    (forall entry, In entry before ->
                   ~ JsString.occursIn (sourceFileAsJsOf E ctx) entry.1) ->
    outcomeOf (tsickleLoader E ctx source fs) = Ok (Some (fixCode E text)).

(** "the pipeline aborts ... only when the pre-emission diagnostic set
    contains at least one error-severity diagnostic". *)
Definition abortsOnlyOnErrorSeverity (E : Externals) (ctx : LoaderCTX)
    (source : string) (fs : FileSystem) : Prop :=
  forall cfg fs1 t1,
    setup E ctx fs = (Ok cfg, fs1, t1) ->
    abortedAtGate (tsickleLoader E ctx source fs) ->
    exists d, In d (diagnosticsOf E ctx cfg fs1) /\ isError d = true.

(** "For every invocation in which no entry of codeByPath matches the
    target file, the pipeline calls emitError with a message naming the
    source file path and returns no code text", a match being, as the spec
    has it, a key that contains the expected path. *)
Definition reportsMissingWhenNoKeyContainsExpected (E : Externals)
    (ctx : LoaderCTX) (source : string) (fs : FileSystem) : Prop :=
  forall cfg fs1 t1,
    setup E ctx fs = (Ok cfg, fs1, t1) ->
    diagnosticsOf E ctx cfg fs1 = [] ->
    (forall entry, In entry (codeByPath E ctx cfg fs1) ->
                   ~ JsString.occursIn (sourceFileAsJsOf E ctx) entry.1) ->
    outcomeOf (tsickleLoader E ctx source fs) = Ok None /\
    emittedErrors (traceOf (tsickleLoader E ctx source fs))
    = [missingMessage ctx].

(** "On every invocation whose options pass schema validation, the extern
    directory is created". *)
Definition createsExternDirWheneverOptionsConform (E : Externals)
    (ctx : LoaderCTX) (source : string) (fs : FileSystem) : Prop :=
  conforms optionsSchema (getOptions ctx) = true ->
  settingOf (getOptions ctx) "externDir" DEFAULT_EXTERN_DIR
    ∈ dirs (diskOf (tsickleLoader E ctx source fs)).

End Spec.

(** ** [./path-utils] *)

Module PathUtils.

Definition sourceExtension : string := ".ts".
Definition emissionExtension : string := ".js".

(** [Some stem] when [s] is [stem] followed by [suffix]. *)
Fixpoint stripSuffix (suffix s : string) : option string :=
  if String.eqb s suffix then Some EmptyString
  else match s with
       | EmptyString => None
       | String c s' => String c <$> stripSuffix suffix s'
       end.

(** Swap a trailing extension [from] for [to]; other paths are unchanged. *)
Definition swapExtension (from to path : string) : string :=
  match stripSuffix from path with
  | Some stem => stem +:+ to
  | None => path
  end.

(** Modelled from the spec: [tsToJS] of [./path-utils], which is not among
    the sources; "replacing the source extension with the emission
    extension". *)
Definition tsToJS (path : string) : string :=
  swapExtension sourceExtension emissionExtension path.

(** Modelled from the spec: [jsToTS] of [./path-utils], which is not among
    the sources; "replacing the emission extension with the source
    extension". *)
Definition jsToTS (path : string) : string :=
  swapExtension emissionExtension sourceExtension path.

End PathUtils.

(** ** A small concrete world

    An instance of [Externals] on which the loader can be run: a front-end
    that reports a diagnostic for each marker found in the root file, and a
    transformer that writes one file per processed root under [emitRoot],
    preceded by its source map when the root asks for one. *)

Module Demo.

Definition contains (s pat : string) : bool :=
  negb (JsString.indexOf s pat =? -1).

(** Like [ts.readConfigFile], which reports a file it cannot read or parse
    in its result and hands the empty configuration: it does not throw. *)
Definition readConfigFile (tsconfig : string)
    (readFile : string -> option string) : option string :=
  match readFile tsconfig with
  | Some text => if String.prefix "{" text then Some text else Some "{}"%string
  | None => Some "{}"%string
  end.

(** Like [ts.parseJsonConfigFileContent]: it does not throw either. *)
Definition parseJsonConfigFileContent (json basePath configFileName : string)
    : option string :=
  Some json.

Definition createProgram (disk : gmap string string) (rootNames : list string)
    (options : string) : list (string * option string) :=
  map (fun name => (name, disk !! name)) rootNames.

Definition diagnose (root : string * option string) : list Diagnostic :=
  match root.2 with
  | None => [mkDiagnostic Error "file not found" (Some root.1) None]
  | Some text =>
      (if contains text "@error"
       then [mkDiagnostic Error "type mismatch" (Some root.1) (Some 0)]
       else []) ++
      (if contains text "@warning"
       then [mkDiagnostic Warning "unused" (Some root.1) (Some 0)]
       else [])
  end.

Definition getPreEmitDiagnostics (program : list (string * option string))
    : list Diagnostic :=
  flat_map diagnose program.

Fixpoint formatDiagnostics (ds : list Diagnostic)
    (host : FormatDiagnosticsHost) : string :=
  match ds with
  | [] => EmptyString
  | d :: ds' =>
      messageText d +:+ getNewLine host +:+ formatDiagnostics ds' host
  end.

(** Arbitrary stand-ins for [fixCode] and [fixExtern]. *)
Definition markCode (code : string) : string := "/*code*/" +:+ code.
Definition markExtern (extern : string) : string := "/*extern*/" +:+ extern.

Definition emitOne (emitRoot : string) (host : TsickleHost)
    (root : string * option string) : list EmitCallback :=
  match root.2 with
  | Some text =>
      if shouldSkipTsickleProcessing host root.1 then []
      else
        (if contains text "@log"
         then [CbLogWarning (mkDiagnostic Warning "logged" (Some root.1) None)]
         else []) ++
        (if contains text "@map"
         then [CbWriteFile (emitRoot +:+ PathUtils.tsToJS root.1 +:+ ".map")
                           "{}"]
         else []) ++
        [CbWriteFile (emitRoot +:+ PathUtils.tsToJS root.1) text]
  | None => []
  end.

Definition externOne (root : string * option string)
    : list (string * string) :=
  match root.2 with
  | Some text =>
      if contains text "export" then [(root.1, "var exported;"%string)] else []
  | None => []
  end.

Definition emit (emitRoot : string) (program : list (string * option string))
    (host : TsickleHost) : EmitResult :=
  {| callbacks := flat_map (emitOne emitRoot host) program;
     externs := list_to_map (flat_map externOne program) |}.

Definition externals (emitRoot : string) : Externals :=
  {| Json := string;
     CompilerOptions := string;
     Program := list (string * option string);
     EOL := ";";
     path_resolve := fun dir name => dir +:+ "/" +:+ name;
     path_dirname := fun p => p;
     ts_readConfigFile := readConfigFile;
     ts_parseJsonConfigFileContent := parseJsonConfigFileContent;
     ts_createProgram := createProgram;
     ts_getPreEmitDiagnostics := getPreEmitDiagnostics;
     ts_formatDiagnosticsWithColorAndContext := formatDiagnostics;
     Tsickle_emit := emit emitRoot;
     tsToJS := PathUtils.tsToJS;
     jsToTS := PathUtils.jsToTS;
     fixCode := markCode;
     fixExtern := markExtern |}.

(** The last component of a path. *)
Fixpoint basename (path : string) : string :=
  match path with
  | EmptyString => EmptyString
  | String c rest =>
      if contains rest "/" then basename rest
      else if Ascii.eqb c JsString.slash then rest
      else String c rest
  end.

(** A transformer that names what it writes relative to the directory of
    the root. *)
Definition emitRelative (program : list (string * option string))
    (host : TsickleHost) : EmitResult :=
  {| callbacks :=
       flat_map (fun root : string * option string =>
                   match root.2 with
                   | Some text =>
                       if shouldSkipTsickleProcessing host root.1 then []
                       else [CbWriteFile (basename (PathUtils.tsToJS root.1))
                                         text]
                   | None => []
                   end) program;
     externs := list_to_map (flat_map externOne program) |}.

Definition externalsRelative : Externals :=
  {| Json := string;
     CompilerOptions := string;
     Program := list (string * option string);
     EOL := ";";
     path_resolve := fun dir name => dir +:+ "/" +:+ name;
     path_dirname := fun p => p;
     ts_readConfigFile := readConfigFile;
     ts_parseJsonConfigFileContent := parseJsonConfigFileContent;
     ts_createProgram := createProgram;
     ts_getPreEmitDiagnostics := getPreEmitDiagnostics;
     ts_formatDiagnosticsWithColorAndContext := formatDiagnostics;
     Tsickle_emit := emitRelative;
     tsToJS := PathUtils.tsToJS;
     jsToTS := PathUtils.jsToTS;
     fixCode := markCode;
     fixExtern := markExtern |}.

Definition ctx : LoaderCTX :=
  {| resourcePath := "/proj/src/a.ts"; query := ∅ |}.

(** Options that name an existing file as the extern directory. *)
Definition ctxDirIsFile : LoaderCTX :=
  {| resourcePath := "/proj/src/a.ts";
     query := {[ "externDir"%string := OString "tsconfig.json" ]} |}.

(** Options that set both the extern directory and the configuration. *)
Definition ctxCustom : LoaderCTX :=
  {| resourcePath := "/proj/src/a.ts";
     query := {[ "externDir"%string := OString "build/gen/externs";
                 "tsconfig"%string := OString "tsconfig.build.json" ]} |}.

(** A resource path as a Windows host gives it. *)
Definition ctxBackslash : LoaderCTX :=
  {| resourcePath := "\proj\src\a.ts"; query := ∅ |}.

(** Options that violate the schema: [externDir] is a boolean. *)
Definition ctxBadOptions : LoaderCTX :=
  {| resourcePath := "/proj/src/a.ts";
     query := {[ "externDir"%string := OBool true ]} |}.

Definition disk (text : string) : FileSystem :=
  {| dirs := ∅;
     files := {[ "tsconfig.json"%string := "{}"%string;
                 "/proj/src/a.ts"%string := text ]} |}.

Definition diskClean : FileSystem := disk "export const a = 1;".
Definition diskError : FileSystem := disk "let n: number = 'x'; // @error".
Definition diskWarning : FileSystem := disk "let unused = 1; // @warning".
Definition diskMixed : FileSystem := disk "// @warning @error".

Definition diskLogged : FileSystem := disk "export const a = 1; // @log".
Definition diskMapped : FileSystem := disk "export const a = 1; // @map".

(** What [setup] yields on [ctx] and the disks above. *)
Definition options (emitRoot : string) : OptionsFromSchema (externals emitRoot) :=
  {| tsconfig := "tsconfig.json";
     externDir := "dist/externs";
     externFile := "dist/externs/externs.js";
     compilerConfig := "{}"%string : CompilerOptions (externals emitRoot) |}.

Definition setupTrace : list Event :=
  [EvEnsureDir "dist/externs"; EvReadConfigFile "tsconfig.json"].

Definition optionsRelative : OptionsFromSchema externalsRelative :=
  {| tsconfig := "tsconfig.json";
     externDir := "dist/externs";
     externFile := "dist/externs/externs.js";
     compilerConfig := "{}"%string : CompilerOptions externalsRelative |}.

(** A disk for [ctxCustom], and what [setup] yields on it. *)
Definition diskCustom : FileSystem :=
  {| dirs := {[ "build"%string ]};
     files := {[ "tsconfig.build.json"%string := "{ }"%string;
                 "/proj/src/a.ts"%string := "export const a = 1;"%string ]} |}.

Definition optionsCustom : OptionsFromSchema (externals "") :=
  {| tsconfig := "tsconfig.build.json";
     externDir := "build/gen/externs";
     externFile := "build/gen/externs/externs.js";
     compilerConfig := "{ }"%string : CompilerOptions (externals "") |}.

(** A malformed project configuration. *)
Definition diskBadConfig : FileSystem :=
  {| dirs := ∅;
     files := {[ "tsconfig.json"%string := "not json"%string;
                 "/proj/src/a.ts"%string := "export const a = 1;"%string ]} |}.

End Demo.


(** ** The paths through one invocation

    [tsickleLoader] leaves through one of seven exits: the three [throw]s of
    [setup], the [return] of the diagnostic gate, the [emitError] after the
    loop, and the [return fixed] of the loop body with or without an append.
    [LoaderPath] lists them with the result, the disk and the calls of each. *)

Definition externDirOf (ctx : LoaderCTX) : string :=
  settingOf (query ctx) "externDir" DEFAULT_EXTERN_DIR.

Definition tsconfigOf (ctx : LoaderCTX) : string :=
  settingOf (query ctx) "tsconfig" DEFAULT_CONFIG_FILE.

Definition setupEvents (ctx : LoaderCTX) : list Event :=
  [EvEnsureDir (externDirOf ctx); EvReadConfigFile (tsconfigOf ctx)].

(** The disk after [fs.appendFileSync(path, data)]. *)
Definition withAppend (path data : string) (fs : FileSystem) : FileSystem :=
  {| dirs := dirs fs;
     files := <[path := default EmptyString (files fs !! path) +:+ data]>
                (files fs) |}.

Inductive LoaderPath (E : Externals) (ctx : LoaderCTX) (fs : FileSystem)
    : Outcome (option string) * FileSystem * list Event -> Prop :=
| PathInvalidOptions :
    conforms optionsSchema (query ctx) = false ->
    LoaderPath E ctx fs (Throw ValidationError, fs, [])
| PathEnsureDirFails (code : string) :
    conforms optionsSchema (query ctx) = true ->
    mkdirFault fs (externDirOf ctx) = Some code ->
    LoaderPath E ctx fs
      (Throw (FsError code), fs, [EvEnsureDir (externDirOf ctx)])
| PathConfigError :
    conforms optionsSchema (query ctx) = true ->
    mkdirFault fs (externDirOf ctx) = None ->
    setupOutcome E ctx fs = Throw ConfigError ->
    LoaderPath E ctx fs
      (Throw ConfigError, withDir (externDirOf ctx) fs, setupEvents ctx)
| PathDiagnostics (cfg : OptionsFromSchema E) :
    conforms optionsSchema (query ctx) = true ->
    mkdirFault fs (externDirOf ctx) = None ->
    setupOutcome E ctx fs = Ok cfg ->
    diagnosticsOf E ctx cfg (withDir (externDirOf ctx) fs) <> [] ->
    LoaderPath E ctx fs
      (Ok None, withDir (externDirOf ctx) fs,
       setupEvents ctx ++ frontEndEvents ctx ++
       [EvEmitError
          (ts_formatDiagnosticsWithColorAndContext E
             (diagnosticsOf E ctx cfg (withDir (externDirOf ctx) fs))
             (diagnosticsHostOf E ctx))])
| PathMissingOutput (cfg : OptionsFromSchema E) :
    conforms optionsSchema (query ctx) = true ->
    mkdirFault fs (externDirOf ctx) = None ->
    setupOutcome E ctx fs = Ok cfg ->
    diagnosticsOf E ctx cfg (withDir (externDirOf ctx) fs) = [] ->
    selectOutput (sourceFileAsJsOf E ctx)
      (codeByPath E ctx cfg (withDir (externDirOf ctx) fs)) = None ->
    LoaderPath E ctx fs
      (Ok None, withDir (externDirOf ctx) fs,
       setupEvents ctx ++ frontEndEvents ctx ++ [EvTsickleEmit] ++
       warningEvents E ctx cfg (withDir (externDirOf ctx) fs) ++
       [EvEmitError (missingMessage ctx)])
| PathReturned (cfg : OptionsFromSchema E) (key text : string) :
    conforms optionsSchema (query ctx) = true ->
    mkdirFault fs (externDirOf ctx) = None ->
    setupOutcome E ctx fs = Ok cfg ->
    diagnosticsOf E ctx cfg (withDir (externDirOf ctx) fs) = [] ->
    selectOutput (sourceFileAsJsOf E ctx)
      (codeByPath E ctx cfg (withDir (externDirOf ctx) fs))
    = Some (key, text) ->
    externs (outputOf E ctx cfg (withDir (externDirOf ctx) fs))
      !! jsToTS E key = None ->
    LoaderPath E ctx fs
      (Ok (Some (fixCode E text)), withDir (externDirOf ctx) fs,
       setupEvents ctx ++ frontEndEvents ctx ++ [EvTsickleEmit] ++
       warningEvents E ctx cfg (withDir (externDirOf ctx) fs))
| PathReturnedWithExtern (cfg : OptionsFromSchema E)
    (key text extern : string) :
    conforms optionsSchema (query ctx) = true ->
    mkdirFault fs (externDirOf ctx) = None ->
    setupOutcome E ctx fs = Ok cfg ->
    diagnosticsOf E ctx cfg (withDir (externDirOf ctx) fs) = [] ->
    selectOutput (sourceFileAsJsOf E ctx)
      (codeByPath E ctx cfg (withDir (externDirOf ctx) fs))
    = Some (key, text) ->
    externs (outputOf E ctx cfg (withDir (externDirOf ctx) fs))
      !! jsToTS E key = Some extern ->
    LoaderPath E ctx fs
      (Ok (Some (fixCode E text)),
       withAppend (externFile cfg) (fixExtern E extern)
                  (withDir (externDirOf ctx) fs),
       setupEvents ctx ++ frontEndEvents ctx ++ [EvTsickleEmit] ++
       warningEvents E ctx cfg (withDir (externDirOf ctx) fs) ++
       [EvAppendFile (externFile cfg) (fixExtern E extern)]).

(** The contents that the last [writeFile(path, _)] call among [cbs]
    passed, if there was one. *)
Fixpoint lastWrite (cbs : list EmitCallback) (path : string) : option string :=
  match cbs with
  | [] => None
  | CbWriteFile path' contents :: cbs' =>
      match lastWrite cbs' path with
      | Some later => Some later
      | None => if String.eqb path' path then Some contents else None
      end
  | CbLogWarning _ :: cbs' => lastWrite cbs' path
  end.

(** * Theorems *)

(** ** The primitives on small inputs *)

Example indexOf_values :
  (JsString.indexOf "abcabc" "ca", JsString.indexOf "abc" "",
   JsString.indexOf "" "", JsString.indexOf "abc" "abcd")
  = (2, 0, 0, -1).
Proof. reflexivity. Qed.

Example replaceBackslashes_windows :
  sourceFileNameOf Demo.ctxBackslash = "/proj/src/a.ts"%string.
Proof. reflexivity. Qed.

Example set_keeps_position :
  JsMap.set (JsMap.set (JsMap.set JsMap.empty "a.js" "1") "b.js" "2") "a.js" "3"
  = [("a.js"%string, "3"%string); ("b.js"%string, "2"%string)].
Proof. reflexivity. Qed.

Example dirsToEnsure_values :
  (dirsToEnsure "dist/externs", dirsToEnsure "/var/out/externs",
   dirsToEnsure "externs")
  = (["dist"; "dist/externs"]%string,
     ["/var"; "/var/out"; "/var/out/externs"]%string,
     ["externs"]%string).
Proof. reflexivity. Qed.

Example mkdirFault_values :
  (mkdirFault Demo.diskClean "dist/externs",
   mkdirFault Demo.diskClean "tsconfig.json",
   mkdirFault Demo.diskClean "tsconfig.json/externs",
   mkdirFault Demo.diskClean "")
  = (None, Some "EEXIST"%string, Some "ENOTDIR"%string, Some "ENOENT"%string).
Proof. vm_compute. reflexivity. Qed.

Example file_at_extern_dir_throws :
  (outcomeOf (tsickleLoader (Demo.externals "") Demo.ctxDirIsFile ""
                            Demo.diskClean),
   traceOf (tsickleLoader (Demo.externals "") Demo.ctxDirIsFile ""
                          Demo.diskClean))
  = (Throw (FsError "EEXIST"), [EvEnsureDir "tsconfig.json"]).
Proof. vm_compute. reflexivity. Qed.

Example malformed_config_goes_on :
  outcomeOf (tsickleLoader (Demo.externals "") Demo.ctx "" Demo.diskBadConfig)
  = Ok (Some "/*code*/export const a = 1;"%string).
Proof. vm_compute. reflexivity. Qed.

Example validate_rejects_boolean :
  outcomeOf (tsickleLoader (Demo.externals "") Demo.ctxBadOptions ""
                           Demo.diskClean)
  = Throw ValidationError.
Proof. reflexivity. Qed.

Example clean_run :
  (outcomeOf (tsickleLoader (Demo.externals "") Demo.ctx "" Demo.diskClean),
   traceOf (tsickleLoader (Demo.externals "") Demo.ctx "" Demo.diskClean))
  = (Ok (Some "/*code*/export const a = 1;"%string),
     [EvEnsureDir "dist/externs"; EvReadConfigFile "tsconfig.json";
      EvCreateProgram ["/proj/src/a.ts"%string]; EvGetPreEmitDiagnostics;
      EvTsickleEmit;
      EvAppendFile "dist/externs/externs.js" "/*extern*/var exported;"]).
Proof. vm_compute. reflexivity. Qed.

Example logged_warning_is_forwarded :
  emittedWarnings
    (traceOf (tsickleLoader (Demo.externals "") Demo.ctx "" Demo.diskLogged))
  = ["logged;"%string].
Proof. vm_compute. reflexivity. Qed.

Example warning_only_set :
  forallb isWarning
    (diagnosticsOf (Demo.externals "") Demo.ctx (Demo.options "")
                   (withDir "dist/externs" Demo.diskWarning))
  = true.
Proof. vm_compute. reflexivity. Qed.

(** ** Substring search *)

Section IndexOf.

Import JsString.

Lemma prefix_true_iff (p s : string) :
  String.prefix p s = true <-> exists post, s = p +:+ post.
Proof.
  revert s. induction p as [|c p IH]; intros s.
  - destruct s; simpl; (split; [intros _; by eexists | done]).
  - destruct s as [|c' s]; simpl.
    + split; [done | intros [post Hpost]; discriminate].
    + destruct (Ascii.ascii_dec c c') as [->|Hne].
      * rewrite IH. split; intros [post Hpost]; exists post.
        -- by rewrite Hpost.
        -- by injection Hpost.
      * split; [done | intros [post Hpost]; injection Hpost; congruence].
Qed.

Lemma occursIn_cons (pat : string) (c : Ascii.ascii) (s : string) :
  occursIn pat (String c s) <->
  String.prefix pat (String c s) = true \/ occursIn pat s.
Proof.
  rewrite prefix_true_iff. split.
  - intros [pre [post H]]. destruct pre as [|c' pre]; simpl in H.
    + left. by exists post.
    + right. injection H as _ H. by exists pre, post.
  - intros [[post H] | [pre [post H]]].
    + by exists EmptyString, post.
    + exists (String c pre), post. simpl. by rewrite H.
Qed.

Lemma occursIn_empty (pat : string) :
  occursIn pat EmptyString <-> String.prefix pat EmptyString = true.
Proof.
  rewrite prefix_true_iff. split.
  - intros [pre [post H]]. destruct pre; [by exists post | discriminate].
  - intros [post H]. by exists EmptyString, post.
Qed.

Lemma indexOfFrom_found (i : Z) (s pat : string) :
  0 <= i -> indexOfFrom i s pat <> -1 <-> occursIn pat s.
Proof.
  revert i. induction s as [|c s IH]; intros i Hi.
  - rewrite occursIn_empty. cbn [indexOfFrom].
    destruct (String.prefix pat EmptyString); split; (done || lia).
  - rewrite occursIn_cons. cbn [indexOfFrom].
    destruct (String.prefix pat (String c s)).
    + split; [by left | lia].
    + rewrite IH by lia. split; [by right | intros [?|?]; done].
Qed.

(** [indexOf] answers [-1] exactly when the pattern does not occur. *)
Lemma indexOf_found (s pat : string) :
  indexOf s pat <> -1 <-> occursIn pat s.
Proof. apply indexOfFrom_found. lia. Qed.

Lemma indexOf_eqb_false (s pat : string) :
  (indexOf s pat =? -1) = false <-> occursIn pat s.
Proof. rewrite Z.eqb_neq. apply indexOf_found. Qed.

Lemma indexOf_eqb_true (s pat : string) :
  (indexOf s pat =? -1) = true <-> ~ occursIn pat s.
Proof. rewrite Z.eqb_eq, <- indexOf_found. lia. Qed.

End IndexOf.

(** ** Running the loader, stage by stage *)

Section Stages.

Variable E : Externals.

Lemma conforms_settings (options : gmap string OptionValue) :
  conforms optionsSchema options = true ->
  nullish (options !! "externDir"%string) DEFAULT_EXTERN_DIR
    = OString (settingOf options "externDir" DEFAULT_EXTERN_DIR) /\
  nullish (options !! "tsconfig"%string) DEFAULT_CONFIG_FILE
    = OString (settingOf options "tsconfig" DEFAULT_CONFIG_FILE).
Proof.
  unfold conforms, optionsSchema, settingOf, nullish. cbn [forallb fst snd].
  destruct (options !! "tsconfig"%string) as [[| |]|];
    destruct (options !! "externDir"%string) as [[| |]|];
    cbn; intros H; try discriminate H; done.
Qed.

Lemma setup_run (ctx : LoaderCTX) (fs : FileSystem) :
  setup E ctx fs =
  if conforms optionsSchema (query ctx) then
    match mkdirFault fs (settingOf (query ctx) "externDir" DEFAULT_EXTERN_DIR)
    with
    | Some code =>
        (Throw (FsError code), fs,
         [EvEnsureDir (settingOf (query ctx) "externDir" DEFAULT_EXTERN_DIR)])
    | None =>
        (setupOutcome E ctx fs,
         withDir (settingOf (query ctx) "externDir" DEFAULT_EXTERN_DIR) fs,
         [EvEnsureDir (settingOf (query ctx) "externDir" DEFAULT_EXTERN_DIR);
          EvReadConfigFile
            (settingOf (query ctx) "tsconfig" DEFAULT_CONFIG_FILE)])
    end
  else (Throw ValidationError, fs, []).
Proof.
  unfold setup, validate, getOptions, setupOutcome.
  destruct (conforms optionsSchema (query ctx)) eqn:Hc; [|reflexivity].
  destruct (conforms_settings _ Hc) as [-> ->].
  unfold mbind, Loader_bind, mret, Loader_ret, asPath, ensureDirSync,
    getFiles, tell, throw. cbn.
  destruct (mkdirFault fs _); [reflexivity|]. cbn.
  destruct (ts_readConfigFile E _ _) as [config|]; [|reflexivity].
  destruct (ts_parseJsonConfigFileContent E config _ _); reflexivity.
Qed.

Lemma setup_ok (ctx : LoaderCTX) (fs fs1 : FileSystem)
    (cfg : OptionsFromSchema E) (t1 : list Event) :
  setup E ctx fs = (Ok cfg, fs1, t1) ->
  conforms optionsSchema (query ctx) = true /\
  fs1 = withDir (settingOf (query ctx) "externDir" DEFAULT_EXTERN_DIR) fs /\
  t1 = [EvEnsureDir (settingOf (query ctx) "externDir" DEFAULT_EXTERN_DIR);
        EvReadConfigFile (settingOf (query ctx) "tsconfig" DEFAULT_CONFIG_FILE)] /\
  externFile cfg =
    path_resolve E (settingOf (query ctx) "externDir" DEFAULT_EXTERN_DIR)
                 EXTERNS_FILE_NAME.
Proof.
  rewrite setup_run.
  destruct (conforms optionsSchema (query ctx)); [|discriminate].
  destruct (mkdirFault fs _); [discriminate|].
  intros H. injection H as Hout <- <-. repeat split.
  unfold setupOutcome in Hout.
  destruct (ts_readConfigFile E _ _) as [config|]; [|discriminate].
  destruct (ts_parseJsonConfigFileContent E config _ _); [|discriminate].
  injection Hout as <-. reflexivity.
Qed.


(** The transformer's callbacks fill [jsFiles] and forward each logged
    warning through [emitWarning]; they leave the disk alone. *)
Lemma runEmitCallbacks_run (ctx : LoaderCTX) (host : FormatDiagnosticsHost)
    (cbs : list EmitCallback) (jsFiles : JsMap.t) (fs : FileSystem) :
  runEmitCallbacks E ctx host cbs jsFiles fs =
  (Ok (writtenFiles cbs jsFiles), fs,
   map (fun w => EvEmitWarning
                   (ts_formatDiagnosticsWithColorAndContext E [w] host))
       (loggedWarnings cbs)).
Proof.
  revert jsFiles. induction cbs as [|[path contents|w] cbs IH]; intros jsFiles.
  - reflexivity.
  - cbn [runEmitCallbacks writtenFiles loggedWarnings]. apply IH.
  - cbn [runEmitCallbacks writtenFiles loggedWarnings map].
    unfold mbind, Loader_bind, handleDiagnostics, emitWarning, tell.
    cbn beta iota. rewrite IH. reflexivity.
Qed.

Lemma forOfJsFiles_run (externFile : string) (output : EmitResult)
    (sourceFileAsJs : string) (entries : JsMap.t) (fs : FileSystem) :
  forOfJsFiles E externFile output sourceFileAsJs entries fs =
  loopOutcome E externFile output (selectOutput sourceFileAsJs entries) fs.
Proof.
  induction entries as [|[path source] rest IH].
  - reflexivity.
  - cbn [forOfJsFiles selectOutput find fst].
    destruct (JsString.indexOf sourceFileAsJs path =? -1); cbn [negb].
    + apply IH.
    + unfold loopOutcome, mbind, Loader_bind, mret, Loader_ret, appendFileSync.
      destruct (externs output !! jsToTS E path); reflexivity.
Qed.

End Stages.

Section Invocation.

Variable E : Externals.
Variables (ctx : LoaderCTX) (source : string) (fs : FileSystem).

Lemma tsickleLoader_throw (e : Exception) (fs1 : FileSystem)
    (t1 : list Event) :
  setup E ctx fs = (Throw e, fs1, t1) ->
  tsickleLoader E ctx source fs = (Throw e, fs1, t1).
Proof.
  intros H. unfold tsickleLoader, mbind, Loader_bind. by rewrite H.
Qed.

Variables (cfg : OptionsFromSchema E) (fs1 : FileSystem) (t1 : list Event).
Hypothesis Hsetup : setup E ctx fs = (Ok cfg, fs1, t1).

(** A non-empty diagnostic set stops the invocation at the gate. *)
Lemma tsickleLoader_gate :
  diagnosticsOf E ctx cfg fs1 <> [] ->
  tsickleLoader E ctx source fs =
  (Ok None, fs1,
   t1 ++ frontEndEvents ctx ++
   [EvEmitError (ts_formatDiagnosticsWithColorAndContext
                   E (diagnosticsOf E ctx cfg fs1) (diagnosticsHostOf E ctx))]).
Proof.
  intros Hne. unfold tsickleLoader, mbind, Loader_bind. rewrite Hsetup.
  unfold getFiles, tell. cbn beta iota.
  fold (sourceFileNameOf ctx). fold (programOf E ctx cfg fs1).
  fold (diagnosticsOf E ctx cfg fs1). fold (diagnosticsHostOf E ctx).
  destruct (diagnosticsOf E ctx cfg fs1) as [|d ds] eqn:Hds; [done|].
  cbn [length Z.of_nat]. 
  replace (0 <? Z.pos (Pos.of_succ_nat (length ds))) with true
    by (symmetry; apply Z.ltb_lt; lia).
  unfold handleDiagnostics, emitError, tell, mret, Loader_ret. reflexivity.
Qed.

(** An empty diagnostic set lets the transformer run; the loop then decides
    between returning the fixed code and reporting the missing output. *)
Lemma tsickleLoader_emit :
  diagnosticsOf E ctx cfg fs1 = [] ->
  tsickleLoader E ctx source fs =
  match loopOutcome E (externFile cfg) (outputOf E ctx cfg fs1)
          (selectOutput (sourceFileAsJsOf E ctx) (codeByPath E ctx cfg fs1))
          fs1
  with
  | (Ok (Some fixed), fs2, t2) =>
      (Ok (Some fixed), fs2,
       t1 ++ frontEndEvents ctx ++ [EvTsickleEmit] ++
       warningEvents E ctx cfg fs1 ++ t2)
  | (Ok None, fs2, t2) =>
      (Ok None, fs2,
       t1 ++ frontEndEvents ctx ++ [EvTsickleEmit] ++
       warningEvents E ctx cfg fs1 ++ t2 ++ [EvEmitError (missingMessage ctx)])
  | (Throw e, fs2, t2) =>
      (Throw e, fs2,
       t1 ++ frontEndEvents ctx ++ [EvTsickleEmit] ++
       warningEvents E ctx cfg fs1 ++ t2)
  end.
Proof.
  intros Hds. unfold tsickleLoader, mbind, Loader_bind. rewrite Hsetup.
  unfold getFiles, tell. cbn beta iota.
  fold (sourceFileNameOf ctx). fold (programOf E ctx cfg fs1).
  fold (diagnosticsOf E ctx cfg fs1). fold (diagnosticsHostOf E ctx).
  rewrite Hds. change (0 <? Z.of_nat (length [])) with false. cbn beta iota.
  fold (outputOf E ctx cfg fs1).
  rewrite runEmitCallbacks_run. fold (codeByPath E ctx cfg fs1).
  fold (warningEvents E ctx cfg fs1). fold (sourceFileAsJsOf E ctx).
  rewrite forOfJsFiles_run.
  destruct (loopOutcome _ _ _ _ _) as [[[[fixed|]|e] fs2] t2];
    unfold emitError, tell, mret, Loader_ret, missingMessage; cbn;
    rewrite ?app_nil_r; reflexivity.
Qed.

End Invocation.

(** ** The extension mapping of [./path-utils] *)

Section Extensions.

Import PathUtils.

Lemma append_length (a b : string) :
  String.length (a +:+ b) = (String.length a + String.length b)%nat.
Proof.
  induction a as [|c a IH]; [done|].
  change (String c a +:+ b) with (String c (a +:+ b)).
  cbn [String.length]. by rewrite IH.
Qed.

Lemma eqb_append_cons (c : Ascii.ascii) (stem suffix : string) :
  String.eqb (String c (stem +:+ suffix)) suffix = false.
Proof.
  apply String.eqb_neq. intros H. apply (f_equal String.length) in H.
  cbn in H. rewrite append_length in H. lia.
Qed.

Lemma stripSuffix_append (suffix stem : string) :
  stripSuffix suffix (stem +:+ suffix) = Some stem.
Proof.
  induction stem as [|c stem IH].
  - change (EmptyString +:+ suffix) with suffix.
    destruct suffix; cbn; by rewrite ?String.eqb_refl, ?Ascii.eqb_refl.
  - change (String c stem +:+ suffix) with (String c (stem +:+ suffix)).
    cbn [stripSuffix]. rewrite eqb_append_cons, IH. reflexivity.
Qed.

Lemma swapExtension_append (from to stem : string) :
  swapExtension from to (stem +:+ from) = stem +:+ to.
Proof. unfold swapExtension. by rewrite stripSuffix_append. Qed.

End Extensions.

(** C6. For every source path [P] that ends in the source extension,
    translating [P] to emission space with [tsToJS] and back to source space
    with [jsToTS] yields [P] unchanged. *)
Theorem C6_extension_roundtrip (P : string) :
  (exists stem, P = stem +:+ PathUtils.sourceExtension) ->
  PathUtils.jsToTS (PathUtils.tsToJS P) = P.
Proof.
  intros [stem ->]. unfold PathUtils.jsToTS, PathUtils.tsToJS.
  by rewrite !swapExtension_append.
Qed.

Lemma C6_extension_roundtrip_witness :
  PathUtils.jsToTS (PathUtils.tsToJS "/proj/src/a.ts") = "/proj/src/a.ts"%string.
Proof.
  apply (C6_extension_roundtrip "/proj/src/a.ts").
  exists "/proj/src/a"%string. reflexivity.
Defined.

(** ** The transformer's skip policy *)

(** C8. The skip policy handed to the transformer is exact path equality: a
    file [F] is skipped if and only if [F] is not string-equal to the
    normalized source path of the invocation. *)
Theorem C8_skip_policy_is_path_equality (ctx : LoaderCTX) (F : string) :
  shouldSkipTsickleProcessing (tsickleHost (sourceFileNameOf ctx)) F = true
  <-> F <> sourceFileNameOf ctx.
Proof.
  cbn [shouldSkipTsickleProcessing tsickleHost].
  rewrite negb_true_iff, String.eqb_neq. split; intros H Heq; by apply H.
Qed.

(** ** The source argument *)

(** C9. Two invocations that agree on the resource path, the options and
    the disk behave alike whatever source text each is passed: same outcome,
    same disk afterwards, same calls to the collaborators.  The source
    argument is never read. *)
Theorem C9_source_argument_is_ignored (E : Externals) (ctx1 ctx2 : LoaderCTX)
    (fs1 fs2 : FileSystem) (source1 source2 : string) :
  resourcePath ctx1 = resourcePath ctx2 ->
  getOptions ctx1 = getOptions ctx2 ->
  fs1 = fs2 ->
  tsickleLoader E ctx1 source1 fs1 = tsickleLoader E ctx2 source2 fs2.
Proof.
  destruct ctx1 as [path1 query1], ctx2 as [path2 query2].
  unfold getOptions. cbn [resourcePath query].
  intros -> -> ->. reflexivity.
Qed.

Lemma C9_source_argument_is_ignored_witness :
  tsickleLoader (Demo.externals "") Demo.ctx "" Demo.diskClean
  = tsickleLoader (Demo.externals "") Demo.ctx "let stale = 0;" Demo.diskClean.
Proof.
  apply (C9_source_argument_is_ignored
           (Demo.externals "") Demo.ctx Demo.ctx Demo.diskClean Demo.diskClean
           "" "let stale = 0;"); reflexivity.
Defined.

(** ** Traces and selection *)

Section Traces.

Variable E : Externals.

Lemma emittedErrors_app (t u : list Event) :
  emittedErrors (t ++ u) = emittedErrors t ++ emittedErrors u.
Proof. apply omap_app. Qed.

Lemma emittedWarnings_app (t u : list Event) :
  emittedWarnings (t ++ u) = emittedWarnings t ++ emittedWarnings u.
Proof. apply omap_app. Qed.

Lemma appended_app (t u : list Event) :
  appended (t ++ u) = appended t ++ appended u.
Proof. apply omap_app. Qed.


Lemma warningEvents_emittedErrors (ctx : LoaderCTX)
    (cfg : OptionsFromSchema E) (fs1 : FileSystem) :
  emittedErrors (warningEvents E ctx cfg fs1) = [].
Proof.
  unfold warningEvents. induction (loggedWarnings _); [done | by cbn].
Qed.

Lemma warningEvents_appended (ctx : LoaderCTX)
    (cfg : OptionsFromSchema E) (fs1 : FileSystem) :
  appended (warningEvents E ctx cfg fs1) = [].
Proof.
  unfold warningEvents. induction (loggedWarnings _); [done | by cbn].
Qed.

Lemma warningEvents_no_emit (ctx : LoaderCTX)
    (cfg : OptionsFromSchema E) (fs1 : FileSystem) :
  ~ In EvTsickleEmit (warningEvents E ctx cfg fs1).
Proof.
  unfold warningEvents.
  induction (loggedWarnings _) as [|w ws IH]; [intros []|].
  cbn. intros [H|H]; [discriminate | done].
Qed.

(** The loop stops at the first entry whose key occurs in the expected
    path. *)
Lemma selectOutput_first (sourceFileAsJs : string)
    (before after : JsMap.t) (key text : string) :
  JsString.occursIn key sourceFileAsJs ->
  (forall entry, In entry before ->
                 ~ JsString.occursIn entry.1 sourceFileAsJs) ->
  selectOutput sourceFileAsJs (before ++ (key, text) :: after)
  = Some (key, text).
Proof.
  intros Hkey Hbefore. unfold selectOutput.
  induction before as [|[k v] before IH]; cbn [app find fst].
  - apply indexOf_eqb_false in Hkey. by rewrite Hkey.
  - assert (Hk : ~ JsString.occursIn k sourceFileAsJs)
      by (apply (Hbefore (k, v)); by left).
    apply indexOf_eqb_true in Hk. rewrite Hk. cbn [negb].
    apply IH. intros entry Hin. apply Hbefore. by right.
Qed.

(** The loop runs to its end when no key occurs in the expected path. *)
Lemma selectOutput_none (sourceFileAsJs : string) (jsFiles : JsMap.t) :
  (forall entry, In entry jsFiles ->
                 ~ JsString.occursIn entry.1 sourceFileAsJs) ->
  selectOutput sourceFileAsJs jsFiles = None.
Proof.
  intros Hall. unfold selectOutput.
  induction jsFiles as [|[k v] jsFiles IH]; [done|]. cbn [find fst].
  assert (Hk : ~ JsString.occursIn k sourceFileAsJs)
    by (apply (Hall (k, v)); by left).
  apply indexOf_eqb_true in Hk. rewrite Hk. cbn [negb].
  apply IH. intros entry Hin. apply Hall. by right.
Qed.

Lemma loopOutcome_dirs (externFile : string) (output : EmitResult)
    (selected : option (string * string)) (fs : FileSystem) :
  dirs (diskOf (loopOutcome E externFile output selected fs)) = dirs fs.
Proof.
  unfold loopOutcome. destruct selected as [[path text]|]; [|done].
  by destruct (externs output !! jsToTS E path).
Qed.

End Traces.

(** ** The diagnostic gate *)

Section Gate.

Variable E : Externals.
Variables (ctx : LoaderCTX) (source : string) (fs : FileSystem).

Lemma setup_trace_quiet (cfg : OptionsFromSchema E) (fs1 : FileSystem)
    (t1 : list Event) :
  setup E ctx fs = (Ok cfg, fs1, t1) ->
  emittedErrors t1 = [] /\ emittedWarnings t1 = [] /\ appended t1 = [] /\
  ~ In EvTsickleEmit t1 /\ files fs1 = files fs.
Proof.
  intros Hs. destruct (setup_ok _ _ _ _ _ _ Hs) as (_ & -> & -> & _).
  repeat split. cbn. intros [H|[H|[]]]; discriminate.
Qed.

Lemma gate_passed_reaches_emit (cfg : OptionsFromSchema E)
    (fs1 : FileSystem) (t1 : list Event) :
  setup E ctx fs = (Ok cfg, fs1, t1) ->
  diagnosticsOf E ctx cfg fs1 = [] ->
  In EvTsickleEmit (traceOf (tsickleLoader E ctx source fs)).
Proof.
  intros Hs Hds. rewrite (tsickleLoader_emit _ _ _ _ _ _ _ Hs Hds).
  destruct (loopOutcome _ _ _ _ _) as [[[[fixed|]|e] fs2] t2];
    unfold traceOf; cbn [snd];
    apply in_or_app; right; apply in_or_app; right; by left.
Qed.

End Gate.

(** C2, as the code has it.  Once [setup] has succeeded, the invocation
    stops at the diagnostic gate exactly when the pre-emission diagnostic set
    is non-empty, whatever the severity of its members; the whole set is then
    reported through [emitError] and nothing goes through [emitWarning]. *)
Theorem C2_gate_aborts_on_any_diagnostic (E : Externals) (ctx : LoaderCTX)
    (source : string) (fs : FileSystem) (cfg : OptionsFromSchema E)
    (fs1 : FileSystem) (t1 : list Event) :
  setup E ctx fs = (Ok cfg, fs1, t1) ->
  (abortedAtGate (tsickleLoader E ctx source fs)
   <-> diagnosticsOf E ctx cfg fs1 <> []) /\
  (diagnosticsOf E ctx cfg fs1 <> [] ->
   emittedErrors (traceOf (tsickleLoader E ctx source fs))
   = [ts_formatDiagnosticsWithColorAndContext
        E (diagnosticsOf E ctx cfg fs1) (diagnosticsHostOf E ctx)] /\
   emittedWarnings (traceOf (tsickleLoader E ctx source fs)) = []).
Proof.
  intros Hs.
  destruct (setup_trace_quiet E ctx fs cfg fs1 t1 Hs)
    as (Herr & Hwarn & _ & Hemit & _).
  split; [split|].
  - intros [_ Hno] Hds. apply Hno.
    by apply (gate_passed_reaches_emit E ctx source fs cfg fs1 t1).
  - intros Hne. rewrite (tsickleLoader_gate _ _ source _ _ _ _ Hs Hne).
    split; [done|]. unfold traceOf; cbn [snd]. intros Hin.
    apply in_app_or in Hin as [Hin|Hin]; [done|].
    cbn in Hin. destruct Hin as [H|[H|[H|[]]]]; discriminate.
  - intros Hne. rewrite (tsickleLoader_gate _ _ source _ _ _ _ Hs Hne).
    unfold traceOf; cbn [snd].
    rewrite emittedErrors_app, emittedWarnings_app, Herr, Hwarn. done.
Qed.

(** C3. When the diagnostic set of the program holds an error-severity
    diagnostic, the invocation calls [emitError] exactly once, with the one
    message that formats the whole set, and returns no code text. *)
Theorem C3_errors_reported_once (E : Externals) (ctx : LoaderCTX)
    (source : string) (fs : FileSystem) (cfg : OptionsFromSchema E)
    (fs1 : FileSystem) (t1 : list Event) :
  setup E ctx fs = (Ok cfg, fs1, t1) ->
  (exists d, In d (diagnosticsOf E ctx cfg fs1) /\ isError d = true) ->
  outcomeOf (tsickleLoader E ctx source fs) = Ok None /\
  emittedErrors (traceOf (tsickleLoader E ctx source fs))
  = [ts_formatDiagnosticsWithColorAndContext
       E (diagnosticsOf E ctx cfg fs1) (diagnosticsHostOf E ctx)].
Proof.
  intros Hs [d [Hin _]].
  assert (Hne : diagnosticsOf E ctx cfg fs1 <> [])
    by (intros Hnil; rewrite Hnil in Hin; destruct Hin).
  destruct (setup_trace_quiet E ctx fs cfg fs1 t1 Hs) as (Herr & _).
  rewrite (tsickleLoader_gate _ _ source _ _ _ _ Hs Hne).
  split; [done|]. unfold traceOf; cbn [snd].
  by rewrite emittedErrors_app, Herr.
Qed.

(** ** The output selector *)

(** C1, as the code has it.  The expected emitted-code path is the source
    path with [tsToJS] applied.  The loop takes the first entry of
    [codeByPath], in iteration order, whose key occurs in this expected path
    as a substring (the expected path contains the key), and the invocation
    returns that entry's text after [fixCode]. *)
Theorem C1_selects_first_key_within_expected (E : Externals) (ctx : LoaderCTX)
    (source : string) (fs : FileSystem) (cfg : OptionsFromSchema E)
    (fs1 : FileSystem) (t1 : list Event) (before after : JsMap.t)
    (key text : string) :
  setup E ctx fs = (Ok cfg, fs1, t1) ->
  diagnosticsOf E ctx cfg fs1 = [] ->
  codeByPath E ctx cfg fs1 = before ++ (key, text) :: after ->
  JsString.occursIn key (tsToJS E (sourceFileNameOf ctx)) ->
  (forall entry, In entry before ->
     ~ JsString.occursIn entry.1 (tsToJS E (sourceFileNameOf ctx))) ->
  outcomeOf (tsickleLoader E ctx source fs) = Ok (Some (fixCode E text)).
Proof.
  intros Hs Hds Hmap Hkey Hbefore.
  rewrite (tsickleLoader_emit _ _ source _ _ _ _ Hs Hds).
  unfold sourceFileAsJsOf. rewrite Hmap.
  rewrite (selectOutput_first _ _ _ _ _ Hkey Hbefore).
  unfold loopOutcome.
  by destruct (externs (outputOf E ctx cfg fs1) !! jsToTS E key).
Qed.

(** C4, as the code has it.  When the pipeline reaches the selection loop
    and no entry of [codeByPath] has a key that occurs in the expected path
    (the loop's own test: the expected path contains the key), the
    invocation calls [emitError] once, with a message that names the source
    file path, and returns no code text. *)
Theorem C4_missing_output_reported (E : Externals) (ctx : LoaderCTX)
    (source : string) (fs : FileSystem) (cfg : OptionsFromSchema E)
    (fs1 : FileSystem) (t1 : list Event) :
  setup E ctx fs = (Ok cfg, fs1, t1) ->
  diagnosticsOf E ctx cfg fs1 = [] ->
  (forall entry, In entry (codeByPath E ctx cfg fs1) ->
     ~ JsString.occursIn entry.1 (tsToJS E (sourceFileNameOf ctx))) ->
  outcomeOf (tsickleLoader E ctx source fs) = Ok None /\
  emittedErrors (traceOf (tsickleLoader E ctx source fs))
  = [missingMessage ctx] /\
  JsString.occursIn (sourceFileNameOf ctx) (missingMessage ctx).
Proof.
  intros Hs Hds Hnone.
  destruct (setup_trace_quiet E ctx fs cfg fs1 t1 Hs) as (Herr & _).
  rewrite (tsickleLoader_emit _ _ source _ _ _ _ Hs Hds).
  unfold sourceFileAsJsOf. rewrite (selectOutput_none _ _ Hnone).
  cbn [loopOutcome]. split; [done|]. split.
  - unfold traceOf; cbn [snd].
    rewrite !emittedErrors_app, Herr, warningEvents_emittedErrors. done.
  - exists "missing compiled result for source file: "%string, EmptyString.
    unfold missingMessage. generalize (sourceFileNameOf ctx) as name.
    intros name. f_equal. induction name as [|c name IH]; [done|].
    change (String c name +:+ EmptyString)
      with (String c (name +:+ EmptyString)).
    by rewrite <- IH.
Qed.

(** ** Appends to the externs file *)

Section Appends.

Variable E : Externals.
Variables (ctx : LoaderCTX) (source : string) (fs : FileSystem).




End Appends.


(** ** The extern directory *)

Lemma withDir_elem (dir : string) (fs : FileSystem) :
  dir ∈ dirs (withDir dir fs).
Proof.
  unfold withDir, dirsToEnsure. cbn [dirs].
  apply elem_of_union_l, elem_of_list_to_set, elem_of_app. right.
  by apply list_elem_of_singleton.
Qed.

Lemma withDir_elems (dir d : string) (fs : FileSystem) :
  In d (dirsToEnsure dir) -> d ∈ dirs (withDir dir fs).
Proof.
  intros Hin. unfold withDir. cbn [dirs].
  by apply elem_of_union_l, elem_of_list_to_set, list_elem_of_In.
Qed.

(** C10, as the code has it.  When the options conform to the schema, the
    first call of the invocation is [fs.ensureDirSync] on the extern
    directory, so it precedes the computation of diagnostics.  Unless a file
    stands at that directory or at one of its ancestors, the directory and
    its ancestors exist afterwards whatever the outcome of the invocation
    is; when a file is in the way the call throws, the invocation ends
    there and the disk is as it was. *)
Theorem C10_extern_dir_created_first (E : Externals) (ctx : LoaderCTX)
    (source : string) (fs : FileSystem) :
  conforms optionsSchema (getOptions ctx) = true ->
  (exists rest,
     traceOf (tsickleLoader E ctx source fs)
     = EvEnsureDir (settingOf (getOptions ctx) "externDir" DEFAULT_EXTERN_DIR)
       :: rest) /\
  (forall pre post,
     traceOf (tsickleLoader E ctx source fs)
     = pre ++ EvGetPreEmitDiagnostics :: post ->
     In (EvEnsureDir (settingOf (getOptions ctx) "externDir" DEFAULT_EXTERN_DIR))
        pre) /\
  (mkdirFault fs (settingOf (getOptions ctx) "externDir" DEFAULT_EXTERN_DIR)
   = None ->
   forall d,
     In d (dirsToEnsure
             (settingOf (getOptions ctx) "externDir" DEFAULT_EXTERN_DIR)) ->
     d ∈ dirs (diskOf (tsickleLoader E ctx source fs))) /\
  (forall code,
     mkdirFault fs (settingOf (getOptions ctx) "externDir" DEFAULT_EXTERN_DIR)
     = Some code ->
     tsickleLoader E ctx source fs
     = (Throw (FsError code), fs,
        [EvEnsureDir
           (settingOf (getOptions ctx) "externDir" DEFAULT_EXTERN_DIR)])).
Proof.
  unfold getOptions. intros Hc.
  set (dir := settingOf (query ctx) "externDir" DEFAULT_EXTERN_DIR).
  assert (Hrun :
    (exists rest,
       traceOf (tsickleLoader E ctx source fs) = EvEnsureDir dir :: rest) /\
    (mkdirFault fs dir = None ->
     forall d, In d (dirsToEnsure dir) ->
               d ∈ dirs (diskOf (tsickleLoader E ctx source fs))) /\
    (forall code,
       mkdirFault fs dir = Some code ->
       tsickleLoader E ctx source fs
       = (Throw (FsError code), fs, [EvEnsureDir dir]))).
  { pose proof (setup_run E ctx fs) as Hs. rewrite Hc in Hs. fold dir in Hs.
    destruct (mkdirFault fs dir) as [code|].
    { rewrite (tsickleLoader_throw _ _ source _ _ _ _ Hs).
      split; [by eexists|]. split; [discriminate|].
      intros code' Hcode. by injection Hcode as <-. }
    destruct (setupOutcome E ctx fs) as [cfg|e].
    - destruct (diagnosticsOf E ctx cfg (withDir dir fs)) as [|d ds] eqn:Hds.
      + rewrite (tsickleLoader_emit _ _ source _ _ _ _ Hs Hds).
        pose proof (loopOutcome_dirs E (externFile cfg)
                      (outputOf E ctx cfg (withDir dir fs))
                      (selectOutput (sourceFileAsJsOf E ctx)
                                    (codeByPath E ctx cfg (withDir dir fs)))
                      (withDir dir fs)) as Hdirs.
        revert Hdirs.
        destruct (loopOutcome _ _ _ _ _) as [[[[fixed|]|e] fs2] t2];
          unfold diskOf, traceOf; cbn [fst snd]; intros Hdirs;
          (split; [by eexists|]); (split; [|discriminate]);
          intros _ d' Hin; rewrite Hdirs; by apply withDir_elems.
      + assert (Hne : diagnosticsOf E ctx cfg (withDir dir fs) <> [])
          by by rewrite Hds.
        rewrite (tsickleLoader_gate _ _ source _ _ _ _ Hs Hne).
        split; [by eexists|]. split; [|discriminate].
        intros _ d' Hin. by apply withDir_elems.
    - rewrite (tsickleLoader_throw _ _ source _ _ _ _ Hs).
      split; [by eexists|]. split; [|discriminate].
      intros _ d' Hin. by apply withDir_elems. }
  destruct Hrun as ([rest Hrest] & Hdir & Hfault).
  split; [by exists rest|]. split; [|by split].
  intros pre post Hpre. rewrite Hrest in Hpre.
  destruct pre as [|ev pre]; [discriminate|].
  injection Hpre as <- _. by left.
Qed.

(** * The theorems at work on the concrete world *)

Lemma Demo_setup (emitRoot text : string) :
  setup (Demo.externals emitRoot) Demo.ctx (Demo.disk text)
  = (Ok (Demo.options emitRoot), withDir "dist/externs" (Demo.disk text),
     Demo.setupTrace).
Proof. rewrite setup_run. reflexivity. Qed.

(** With a source map written before the code, the key of the first entry
    contains the expected path, and the loop still passes it over: it returns
    the text of the second entry. *)
Lemma C1_first_key_containing_expected_not_selected :
  ~ Spec.selectsFirstKeyContainingExpected
      (Demo.externals "") Demo.ctx "" Demo.diskMapped.
Proof.
  intros Hspec.
  specialize (Hspec (Demo.options "") (withDir "dist/externs" Demo.diskMapped)
                    Demo.setupTrace [] "/proj/src/a.js.map"%string "{}"%string
                    [("/proj/src/a.js"%string,
                      "export const a = 1; // @map"%string)]).
  assert (Hout : outcomeOf (tsickleLoader (Demo.externals "") Demo.ctx ""
                                          Demo.diskMapped)
                 = Ok (Some "/*code*/{}"%string)).
  { apply Hspec.
    - apply Demo_setup.
    - vm_compute. reflexivity.
    - vm_compute. reflexivity.
    - exists EmptyString, ".map"%string. reflexivity.
    - intros entry []. }
  vm_compute in Hout. discriminate Hout.
Qed.

Lemma C1_selects_first_key_within_expected_witness :
  outcomeOf (tsickleLoader (Demo.externals "") Demo.ctx "" Demo.diskMapped)
  = Ok (Some "/*code*/export const a = 1; // @map"%string).
Proof.
  apply (C1_selects_first_key_within_expected
           (Demo.externals "") Demo.ctx "" Demo.diskMapped
           (Demo.options "") (withDir "dist/externs" Demo.diskMapped)
           Demo.setupTrace
           [("/proj/src/a.js.map"%string, "{}"%string)] []
           "/proj/src/a.js"%string "export const a = 1; // @map"%string).
  - apply Demo_setup.
  - vm_compute. reflexivity.
  - vm_compute. reflexivity.
  - exists EmptyString, EmptyString. reflexivity.
  - intros entry [<-|[]]. apply indexOf_eqb_true. vm_compute. reflexivity.
Defined.

(** A diagnostic set that holds one warning and no error stops the
    invocation at the gate. *)
Lemma C2_warning_only_set_aborts :
  ~ Spec.abortsOnlyOnErrorSeverity
      (Demo.externals "") Demo.ctx "" Demo.diskWarning.
Proof.
  intros Hspec.
  destruct (Hspec (Demo.options "") (withDir "dist/externs" Demo.diskWarning)
                  Demo.setupTrace (Demo_setup _ _)) as [d [Hin Herr]].
  - split; [vm_compute; reflexivity|]. vm_compute.
    intros [H|[H|[H|[H|[H|[]]]]]]; discriminate H.
  - vm_compute in Hin. destruct Hin as [<-|[]]. discriminate Herr.
Qed.

Lemma C2_gate_aborts_on_any_diagnostic_witness :
  (abortedAtGate (tsickleLoader (Demo.externals "") Demo.ctx "" Demo.diskWarning)
   <-> diagnosticsOf (Demo.externals "") Demo.ctx (Demo.options "")
         (withDir "dist/externs" Demo.diskWarning) <> []) /\
  (diagnosticsOf (Demo.externals "") Demo.ctx (Demo.options "")
     (withDir "dist/externs" Demo.diskWarning) <> [] ->
   emittedErrors
     (traceOf (tsickleLoader (Demo.externals "") Demo.ctx "" Demo.diskWarning))
   = ["unused;"%string] /\
   emittedWarnings
     (traceOf (tsickleLoader (Demo.externals "") Demo.ctx "" Demo.diskWarning))
   = []).
Proof.
  apply (C2_gate_aborts_on_any_diagnostic
           (Demo.externals "") Demo.ctx "" Demo.diskWarning (Demo.options "")
           (withDir "dist/externs" Demo.diskWarning) Demo.setupTrace).
  apply Demo_setup.
Defined.

Lemma C3_errors_reported_once_witness :
  outcomeOf (tsickleLoader (Demo.externals "") Demo.ctx "" Demo.diskMixed)
  = Ok None /\
  emittedErrors
    (traceOf (tsickleLoader (Demo.externals "") Demo.ctx "" Demo.diskMixed))
  = ["type mismatch;unused;"%string].
Proof.
  apply (C3_errors_reported_once
           (Demo.externals "") Demo.ctx "" Demo.diskMixed (Demo.options "")
           (withDir "dist/externs" Demo.diskMixed) Demo.setupTrace).
  - apply Demo_setup.
  - exists (mkDiagnostic Error "type mismatch" (Some "/proj/src/a.ts"%string)
                         (Some 0)).
    split; [vm_compute; by left | reflexivity].
Defined.

Lemma C4_missing_output_reported_witness :
  outcomeOf (tsickleLoader (Demo.externals "/mnt") Demo.ctx "" Demo.diskClean)
  = Ok None /\
  emittedErrors
    (traceOf (tsickleLoader (Demo.externals "/mnt") Demo.ctx "" Demo.diskClean))
  = ["missing compiled result for source file: /proj/src/a.ts"%string] /\
  JsString.occursIn "/proj/src/a.ts"
    "missing compiled result for source file: /proj/src/a.ts".
Proof.
  apply (C4_missing_output_reported
           (Demo.externals "/mnt") Demo.ctx "" Demo.diskClean
           (Demo.options "/mnt") (withDir "dist/externs" Demo.diskClean)
           Demo.setupTrace).
  - apply Demo_setup.
  - vm_compute. reflexivity.
  - intros entry Hin. vm_compute in Hin. destruct Hin as [<-|[]].
    apply indexOf_eqb_true. vm_compute. reflexivity.
Defined.


(** Options that conform to the schema and name an existing file as the
    extern directory: [ensureDirSync] throws and no directory is created. *)
Lemma C10_file_at_extern_dir_blocks_creation :
  ~ Spec.createsExternDirWheneverOptionsConform
      (Demo.externals "") Demo.ctxDirIsFile "" Demo.diskClean.
Proof.
  intros Hspec.
  assert (Hrun : tsickleLoader (Demo.externals "") Demo.ctxDirIsFile ""
                               Demo.diskClean
                 = (Throw (FsError "EEXIST"), Demo.diskClean,
                    [EvEnsureDir "tsconfig.json"]))
    by (vm_compute; reflexivity).
  unfold Spec.createsExternDirWheneverOptionsConform in Hspec.
  rewrite Hrun in Hspec.
  assert (Hin : "tsconfig.json"%string ∈ (∅ : gset string))
    by (apply Hspec; vm_compute; reflexivity).
  by apply not_elem_of_empty in Hin.
Qed.

Lemma C10_extern_dir_created_first_witness :
  In (EvEnsureDir "dist/externs")
     [EvEnsureDir "dist/externs"; EvReadConfigFile "tsconfig.json";
      EvCreateProgram ["/proj/src/a.ts"%string]] /\
  "dist"%string
    ∈ dirs (diskOf (tsickleLoader (Demo.externals "") Demo.ctx ""
                                  Demo.diskError)) /\
  "dist/externs"%string
    ∈ dirs (diskOf (tsickleLoader (Demo.externals "") Demo.ctx ""
                                  Demo.diskError)).
Proof.
  destruct (C10_extern_dir_created_first
              (Demo.externals "") Demo.ctx "" Demo.diskError)
    as (_ & Hbefore & Hdirs & _).
  - vm_compute. reflexivity.
  - split; [|split].
    + apply (Hbefore _ [EvEmitError "type mismatch;"]).
      vm_compute. reflexivity.
    + apply Hdirs; [vm_compute; reflexivity | vm_compute; by left].
    + apply Hdirs; [vm_compute; reflexivity | vm_compute; right; by left].
Defined.

Lemma Demo_setup_relative (text : string) :
  setup Demo.externalsRelative Demo.ctx (Demo.disk text)
  = (Ok Demo.optionsRelative, withDir "dist/externs" (Demo.disk text),
     Demo.setupTrace).
Proof. rewrite setup_run. reflexivity. Qed.

(** With the only key ["a.js"], no key contains the expected path
    ["/proj/src/a.js"], and the loader still returns code: the key occurs in
    the expected path. *)
Lemma C4_key_within_expected_returns_code :
  ~ Spec.reportsMissingWhenNoKeyContainsExpected
      Demo.externalsRelative Demo.ctx "" Demo.diskClean.
Proof.
  intros Hspec.
  destruct (Hspec Demo.optionsRelative (withDir "dist/externs" Demo.diskClean)
                  Demo.setupTrace) as [Hout _].
  - apply Demo_setup_relative.
  - vm_compute. reflexivity.
  - intros entry Hin. vm_compute in Hin. destruct Hin as [<-|[]].
    apply indexOf_eqb_true. vm_compute. reflexivity.
  - vm_compute in Hout. discriminate Hout.
Qed.

(** * Beyond the specification: what the code itself shows *)

(** ** Every invocation takes one of the seven paths *)

Lemma setupOutcome_throw (E : Externals) (ctx : LoaderCTX) (fs : FileSystem)
    (e : Exception) :
  setupOutcome E ctx fs = Throw e -> e = ConfigError.
Proof.
  unfold setupOutcome.
  destruct (ts_readConfigFile E _ _) as [config|]; [|congruence].
  destruct (ts_parseJsonConfigFileContent E config _ _); congruence.
Qed.

Lemma tsickleLoader_path (E : Externals) (ctx : LoaderCTX) (source : string)
    (fs : FileSystem) :
  LoaderPath E ctx fs (tsickleLoader E ctx source fs).
Proof.
  pose proof (setup_run E ctx fs) as Hs.
  fold (externDirOf ctx) (tsconfigOf ctx) in Hs. fold (setupEvents ctx) in Hs.
  destruct (conforms optionsSchema (query ctx)) eqn:Hc.
  - destruct (mkdirFault fs (externDirOf ctx)) as [code|] eqn:Hfault.
    { rewrite (tsickleLoader_throw _ _ source _ _ _ _ Hs).
      by apply PathEnsureDirFails. }
    destruct (setupOutcome E ctx fs) as [cfg|e] eqn:Hout.
    + destruct (diagnosticsOf E ctx cfg (withDir (externDirOf ctx) fs))
        as [|d ds] eqn:Hds.
      * rewrite (tsickleLoader_emit _ _ source _ _ _ _ Hs Hds).
        destruct (selectOutput _ _) as [[key text]|] eqn:Hsel.
        -- cbn [loopOutcome].
           destruct (externs _ !! jsToTS E key) as [extern|] eqn:Hex.
           ++ by eapply PathReturnedWithExtern.
           ++ rewrite app_nil_r. by eapply PathReturned.
        -- cbn [loopOutcome app]. by eapply PathMissingOutput.
      * assert (Hne : diagnosticsOf E ctx cfg (withDir (externDirOf ctx) fs)
                      <> []) by by rewrite Hds.
        rewrite (tsickleLoader_gate _ _ source _ _ _ _ Hs Hne).
        by eapply PathDiagnostics.
    + rewrite (tsickleLoader_throw _ _ source _ _ _ _ Hs).
      pose proof (setupOutcome_throw _ _ _ _ Hout) as ->.
      by apply PathConfigError.
  - rewrite (tsickleLoader_throw _ _ source _ _ _ _ Hs).
    by apply PathInvalidOptions.
Qed.

Lemma setupOutcome_ok (E : Externals) (ctx : LoaderCTX) (fs : FileSystem)
    (cfg : OptionsFromSchema E) :
  setupOutcome E ctx fs = Ok cfg ->
  externDir cfg = externDirOf ctx /\
  tsconfig cfg = tsconfigOf ctx /\
  externFile cfg = path_resolve E (externDirOf ctx) EXTERNS_FILE_NAME.
Proof.
  unfold setupOutcome.
  destruct (ts_readConfigFile E _ _) as [config|]; [|discriminate].
  destruct (ts_parseJsonConfigFileContent E config _ _); [|discriminate].
  intros H. injection H as <-. done.
Qed.

Lemma append_empty_r (s : string) : s +:+ EmptyString = s.
Proof.
  induction s as [|c s IH]; [done|].
  change (String c s +:+ EmptyString) with (String c (s +:+ EmptyString)).
  by rewrite IH.
Qed.

Lemma setupEvents_quiet (ctx : LoaderCTX) :
  emittedErrors (setupEvents ctx) = [] /\
  emittedWarnings (setupEvents ctx) = [] /\
  appended (setupEvents ctx) = [].
Proof. done. Qed.

Lemma warningEvents_emittedWarnings (E : Externals) (ctx : LoaderCTX)
    (cfg : OptionsFromSchema E) (fs1 : FileSystem) :
  emittedWarnings (warningEvents E ctx cfg fs1)
  = map (fun w => ts_formatDiagnosticsWithColorAndContext
                    E [w] (diagnosticsHostOf E ctx))
        (loggedWarnings (callbacks (outputOf E ctx cfg fs1))).
Proof.
  unfold warningEvents.
  induction (loggedWarnings _) as [|w ws IH]; [done|]. cbn. by rewrite <- IH.
Qed.

(** ** Options *)

Lemma conforms_false (options : gmap string OptionValue) :
  conforms optionsSchema options = false <->
  exists key v,
    (key = "tsconfig"%string \/ key = "externDir"%string) /\
    options !! key = Some v /\ forall s, v <> OString s.
Proof.
  unfold conforms, optionsSchema. cbn [forallb fst snd]. split.
  - destruct (options !! "tsconfig"%string) as [v1|] eqn:H1.
    + destruct v1 as [| |s1].
      * intros _. exists "tsconfig"%string, ONull. by repeat split; auto.
      * intros _. exists "tsconfig"%string, (OBool b). by repeat split; auto.
      * destruct (options !! "externDir"%string) as [v2|] eqn:H2.
        -- destruct v2 as [| |s2]; cbn; intros Hf; try discriminate Hf.
           ++ exists "externDir"%string, ONull. by repeat split; auto.
           ++ exists "externDir"%string, (OBool b). by repeat split; auto.
        -- cbn. discriminate.
    + destruct (options !! "externDir"%string) as [v2|] eqn:H2.
      * destruct v2 as [| |s2]; cbn; intros Hf; try discriminate Hf.
        -- exists "externDir"%string, ONull. by repeat split; auto.
        -- exists "externDir"%string, (OBool b). by repeat split; auto.
      * cbn. discriminate.
  - intros (key & v & [-> | ->] & Hv & Hns); rewrite Hv.
    + destruct v as [| |s]; [done | done | by destruct (Hns s)].
    + destruct v as [| |s]; cbn; rewrite ?andb_false_r; try done.
      by destruct (Hns s).
Qed.

(** X1. The loader throws a validation error exactly when the option
    [tsconfig] or [externDir] is present with a value that is not a string
    ([null] included); it has then done nothing else: the disk is as it was
    and no collaborator has been called. *)
Theorem X1_non_string_option_rejected (E : Externals) (ctx : LoaderCTX)
    (source : string) (fs : FileSystem) :
  (outcomeOf (tsickleLoader E ctx source fs) = Throw ValidationError <->
   exists key v,
     (key = "tsconfig"%string \/ key = "externDir"%string) /\
     getOptions ctx !! key = Some v /\ forall s, v <> OString s) /\
  (outcomeOf (tsickleLoader E ctx source fs) = Throw ValidationError ->
   tsickleLoader E ctx source fs = (Throw ValidationError, fs, [])).
Proof.
  unfold getOptions. rewrite <- conforms_false.
  destruct (tsickleLoader_path E ctx source fs) as
    [Hc | code Hc Hfault | Hc Hfault Hout | cfg Hc Hfault Hout Hds
     | cfg Hc Hfault Hout Hds Hsel
     | cfg key text Hc Hfault Hout Hds Hsel Hex
     | cfg key text extern Hc Hfault Hout Hds Hsel Hex];
    unfold outcomeOf; cbn [fst]; rewrite Hc;
    (split; [split|]); try done.
Qed.

(** X2. What [setup] returns: the extern directory and the configuration
    file are the options of those names, or ["dist/externs"] and
    ["tsconfig.json"] when the option is absent; the externs file is
    ["externs.js"] resolved against the extern directory; and [setup] has
    made exactly two calls, creating that directory with its missing
    ancestors and then reading that configuration file.  No file is
    touched. *)
Theorem X2_setup_resolves_options (E : Externals) (ctx : LoaderCTX)
    (fs fs1 : FileSystem) (cfg : OptionsFromSchema E) (t1 : list Event) :
  setup E ctx fs = (Ok cfg, fs1, t1) ->
  externDir cfg = match getOptions ctx !! "externDir"%string with
                  | Some (OString dir) => dir
                  | _ => "dist/externs"%string
                  end /\
  tsconfig cfg = match getOptions ctx !! "tsconfig"%string with
                 | Some (OString name) => name
                 | _ => "tsconfig.json"%string
                 end /\
  externFile cfg = path_resolve E (externDir cfg) "externs.js" /\
  t1 = [EvEnsureDir (externDir cfg); EvReadConfigFile (tsconfig cfg)] /\
  dirs fs1 = list_to_set (dirsToEnsure (externDir cfg)) ∪ dirs fs /\
  files fs1 = files fs.
Proof.
  rewrite setup_run.
  destruct (conforms optionsSchema (query ctx)); [|discriminate].
  destruct (mkdirFault fs _); [discriminate|].
  intros H. injection H as Hout <- <-.
  destruct (setupOutcome_ok _ _ _ _ Hout) as (-> & -> & ->). done.
Qed.

Lemma Demo_setup_custom :
  setup (Demo.externals "") Demo.ctxCustom Demo.diskCustom
  = (Ok Demo.optionsCustom, withDir "build/gen/externs" Demo.diskCustom,
     [EvEnsureDir "build/gen/externs"; EvReadConfigFile "tsconfig.build.json"]).
Proof. rewrite setup_run. reflexivity. Qed.

Lemma X2_setup_resolves_options_witness :
  externDir Demo.optionsCustom = "build/gen/externs"%string /\
  tsconfig Demo.optionsCustom = "tsconfig.build.json"%string /\
  externFile Demo.optionsCustom = "build/gen/externs/externs.js"%string /\
  [EvEnsureDir "build/gen/externs"; EvReadConfigFile "tsconfig.build.json"]
  = [EvEnsureDir (externDir Demo.optionsCustom);
     EvReadConfigFile (tsconfig Demo.optionsCustom)] /\
  dirs (withDir "build/gen/externs" Demo.diskCustom)
  = list_to_set ["build"; "build/gen"; "build/gen/externs"]%string
    ∪ dirs Demo.diskCustom /\
  files (withDir "build/gen/externs" Demo.diskCustom) = files Demo.diskCustom.
Proof.
  apply (X2_setup_resolves_options (Demo.externals "") Demo.ctxCustom
           Demo.diskCustom (withDir "build/gen/externs" Demo.diskCustom)
           Demo.optionsCustom
           [EvEnsureDir "build/gen/externs";
            EvReadConfigFile "tsconfig.build.json"]).
  apply Demo_setup_custom.
Defined.

Lemma settingOf_insert_ne (options : gmap string OptionValue)
    (key name fallback : string) (v : OptionValue) :
  key <> name ->
  settingOf (<[key := v]> options) name fallback
  = settingOf options name fallback.
Proof. intros Hne. unfold settingOf. by rewrite lookup_insert_ne. Qed.

Lemma setup_insert_unknown (E : Externals) (path : string)
    (options : gmap string OptionValue) (key : string) (v : OptionValue)
    (fs : FileSystem) :
  key <> "tsconfig"%string -> key <> "externDir"%string ->
  setup E {| resourcePath := path; query := <[key := v]> options |} fs
  = setup E {| resourcePath := path; query := options |} fs.
Proof.
  intros Ht Hd. rewrite !setup_run. unfold setupOutcome. cbn [query].
  rewrite !settingOf_insert_ne by done.
  unfold conforms, optionsSchema. cbn [forallb fst snd].
  by rewrite !lookup_insert_ne.
Qed.

(** X3. An option under any other name than [tsconfig] and [externDir],
    whatever its value, changes nothing: the invocation has the same outcome,
    leaves the same disk and makes the same calls as without it. *)
Theorem X3_unknown_option_is_ignored (E : Externals) (path : string)
    (options : gmap string OptionValue) (key : string) (v : OptionValue)
    (source : string) (fs : FileSystem) :
  key <> "tsconfig"%string -> key <> "externDir"%string ->
  tsickleLoader E {| resourcePath := path; query := <[key := v]> options |}
                source fs
  = tsickleLoader E {| resourcePath := path; query := options |} source fs.
Proof.
  intros Ht Hd.
  pose proof (setup_insert_unknown E path options key v fs Ht Hd) as Hs.
  destruct (setup E {| resourcePath := path; query := options |} fs)
    as [[[cfg|e] fs1] t1] eqn:Hs'.
  - destruct (diagnosticsOf E {| resourcePath := path; query := options |}
                            cfg fs1) as [|d ds] eqn:Hds.
    + rewrite (tsickleLoader_emit _ _ source _ _ _ _ Hs Hds).
      by rewrite (tsickleLoader_emit _ _ source _ _ _ _ Hs' Hds).
    + assert (Hne : diagnosticsOf E {| resourcePath := path; query := options |}
                                  cfg fs1 <> []) by by rewrite Hds.
      rewrite (tsickleLoader_gate _ _ source _ _ _ _ Hs Hne).
      by rewrite (tsickleLoader_gate _ _ source _ _ _ _ Hs' Hne).
  - rewrite (tsickleLoader_throw _ _ source _ _ _ _ Hs).
    by rewrite (tsickleLoader_throw _ _ source _ _ _ _ Hs').
Qed.

Lemma X3_unknown_option_is_ignored_witness :
  tsickleLoader (Demo.externals "")
    {| resourcePath := "/proj/src/a.ts";
       query := <["sourceMap"%string := OBool true]> ∅ |}
    "" Demo.diskClean
  = tsickleLoader (Demo.externals "")
      {| resourcePath := "/proj/src/a.ts"; query := ∅ |} "" Demo.diskClean.
Proof.
  apply (X3_unknown_option_is_ignored (Demo.externals "") "/proj/src/a.ts" ∅
           "sourceMap" (OBool true) "" Demo.diskClean); discriminate.
Defined.

(** ** Exits *)

(** X5. All or nothing: an invocation that returns code has not called
    [emitError]; one that returns [undefined] has called it exactly once; one
    that throws has not called it. *)
Theorem X5_code_or_one_error (E : Externals) (ctx : LoaderCTX)
    (source : string) (fs : FileSystem) :
  match outcomeOf (tsickleLoader E ctx source fs) with
  | Ok (Some _) =>
      emittedErrors (traceOf (tsickleLoader E ctx source fs)) = []
  | Ok None =>
      exists message,
        emittedErrors (traceOf (tsickleLoader E ctx source fs)) = [message]
  | Throw _ =>
      emittedErrors (traceOf (tsickleLoader E ctx source fs)) = []
  end.
Proof.
  destruct (tsickleLoader_path E ctx source fs) as
    [Hc | code Hc Hfault | Hc Hfault Hout | cfg Hc Hfault Hout Hds
     | cfg Hc Hfault Hout Hds Hsel
     | cfg key text Hc Hfault Hout Hds Hsel Hex
     | cfg key text extern Hc Hfault Hout Hds Hsel Hex];
    unfold outcomeOf, traceOf; cbn [fst snd];
    rewrite ?emittedErrors_app, ?warningEvents_emittedErrors;
    cbn; try done; by eexists.
Qed.

(** X6. When the transformer runs, each warning it logs reaches the host as
    one [emitWarning] call of its own, formatted alone, in the order logged;
    no other warning is emitted. *)
Theorem X6_warnings_forwarded_one_by_one (E : Externals) (ctx : LoaderCTX)
    (source : string) (fs : FileSystem) (cfg : OptionsFromSchema E)
    (fs1 : FileSystem) (t1 : list Event) :
  setup E ctx fs = (Ok cfg, fs1, t1) ->
  diagnosticsOf E ctx cfg fs1 = [] ->
  emittedWarnings (traceOf (tsickleLoader E ctx source fs))
  = map (fun w => ts_formatDiagnosticsWithColorAndContext
                    E [w] (diagnosticsHostOf E ctx))
        (loggedWarnings (callbacks (outputOf E ctx cfg fs1))).
Proof.
  intros Hs Hds.
  destruct (setup_trace_quiet E ctx fs cfg fs1 t1 Hs) as (_ & Hwarn & _).
  rewrite (tsickleLoader_emit _ _ source _ _ _ _ Hs Hds).
  unfold loopOutcome.
  destruct (selectOutput _ _) as [[key text]|];
    [destruct (externs _ !! jsToTS E key)|];
    unfold traceOf; cbn [snd];
    rewrite !emittedWarnings_app, Hwarn, warningEvents_emittedWarnings;
    cbn; by rewrite app_nil_r.
Qed.

Lemma X6_warnings_forwarded_one_by_one_witness :
  emittedWarnings
    (traceOf (tsickleLoader (Demo.externals "") Demo.ctx "" Demo.diskLogged))
  = ["logged;"%string].
Proof.
  apply (X6_warnings_forwarded_one_by_one (Demo.externals "") Demo.ctx ""
           Demo.diskLogged (Demo.options "")
           (withDir "dist/externs" Demo.diskLogged) Demo.setupTrace).
  - apply Demo_setup.
  - vm_compute. reflexivity.
Defined.

(** ** The disk *)

(** X7. An invocation appends at most once, and only on its way to returning
    code: after an append the result is code text, never [undefined] and
    never an exception. *)
Theorem X7_at_most_one_append (E : Externals) (ctx : LoaderCTX)
    (source : string) (fs : FileSystem) :
  match appended (traceOf (tsickleLoader E ctx source fs)) with
  | [] => True
  | [_] => exists code,
             outcomeOf (tsickleLoader E ctx source fs) = Ok (Some code)
  | _ :: _ :: _ => False
  end.
Proof.
  destruct (tsickleLoader_path E ctx source fs) as
    [Hc | code Hc Hfault | Hc Hfault Hout | cfg Hc Hfault Hout Hds
     | cfg Hc Hfault Hout Hds Hsel
     | cfg key text Hc Hfault Hout Hds Hsel Hex
     | cfg key text extern Hc Hfault Hout Hds Hsel Hex];
    unfold outcomeOf, traceOf; cbn [fst snd];
    rewrite ?appended_app, ?warningEvents_appended;
    cbn; try done; by eexists.
Qed.

(** X8. The only file an invocation may change is the externs file,
    ["externs.js"] resolved against the extern directory: every other path of
    the disk reads afterwards as it did before. *)
Theorem X8_other_files_untouched (E : Externals) (ctx : LoaderCTX)
    (source : string) (fs : FileSystem) (path : string) :
  path <> path_resolve E (externDirOf ctx) EXTERNS_FILE_NAME ->
  files (diskOf (tsickleLoader E ctx source fs)) !! path = files fs !! path.
Proof.
  intros Hne.
  destruct (tsickleLoader_path E ctx source fs) as
    [Hc | code Hc Hfault | Hc Hfault Hout | cfg Hc Hfault Hout Hds
     | cfg Hc Hfault Hout Hds Hsel
     | cfg key text Hc Hfault Hout Hds Hsel Hex
     | cfg key text extern Hc Hfault Hout Hds Hsel Hex];
    unfold diskOf; cbn [fst snd withDir withAppend files]; try done.
  destruct (setupOutcome_ok _ _ _ _ Hout) as (_ & _ & ->).
  by rewrite lookup_insert_ne.
Qed.

Lemma X8_other_files_untouched_witness :
  files (diskOf (tsickleLoader (Demo.externals "") Demo.ctx "" Demo.diskClean))
    !! "tsconfig.json"%string
  = files Demo.diskClean !! "tsconfig.json"%string.
Proof.
  apply (X8_other_files_untouched (Demo.externals "") Demo.ctx ""
           Demo.diskClean "tsconfig.json").
  vm_compute. discriminate.
Defined.

(** X9. Files are appended to, never truncated or removed: whatever a path
    held before the invocation is a prefix of what it holds afterwards. *)
Theorem X9_files_only_grow (E : Externals) (ctx : LoaderCTX)
    (source : string) (fs : FileSystem) (path old : string) :
  files fs !! path = Some old ->
  exists suffix,
    files (diskOf (tsickleLoader E ctx source fs)) !! path
    = Some (old +:+ suffix).
Proof.
  intros Hold.
  destruct (tsickleLoader_path E ctx source fs) as
    [Hc | code Hc Hfault | Hc Hfault Hout | cfg Hc Hfault Hout Hds
     | cfg Hc Hfault Hout Hds Hsel
     | cfg key text Hc Hfault Hout Hds Hsel Hex
     | cfg key text extern Hc Hfault Hout Hds Hsel Hex];
    unfold diskOf; cbn [fst snd withDir withAppend files];
    try (exists EmptyString; by rewrite append_empty_r).
  destruct (decide (externFile cfg = path)) as [->|Hne].
  - exists (fixExtern E extern). by rewrite lookup_insert_eq, Hold.
  - exists EmptyString. by rewrite lookup_insert_ne, append_empty_r.
Qed.

Lemma X9_files_only_grow_witness :
  exists suffix,
    files (diskOf (tsickleLoader (Demo.externals "") Demo.ctx ""
                                 (withAppend "dist/externs/externs.js"
                                             "var earlier;" Demo.diskClean)))
      !! "dist/externs/externs.js"%string
    = Some ("var earlier;" +:+ suffix).
Proof.
  apply (X9_files_only_grow (Demo.externals "") Demo.ctx ""
           (withAppend "dist/externs/externs.js" "var earlier;" Demo.diskClean)
           "dist/externs/externs.js" "var earlier;").
  vm_compute. reflexivity.
Defined.

(** X10. Directories: an invocation removes none, and the only ones it may
    add are the extern directory and its ancestors; when these are all there
    already, the set of directories is unchanged. *)
Theorem X10_only_extern_dir_is_created (E : Externals) (ctx : LoaderCTX)
    (source : string) (fs : FileSystem) :
  dirs fs ⊆ dirs (diskOf (tsickleLoader E ctx source fs)) /\
  dirs (diskOf (tsickleLoader E ctx source fs))
    ⊆ list_to_set (dirsToEnsure (externDirOf ctx)) ∪ dirs fs /\
  ((forall d, In d (dirsToEnsure (externDirOf ctx)) -> d ∈ dirs fs) ->
   dirs (diskOf (tsickleLoader E ctx source fs)) = dirs fs).
Proof.
  assert (Hsub : (forall d, In d (dirsToEnsure (externDirOf ctx)) ->
                            d ∈ dirs fs) ->
                 (list_to_set (dirsToEnsure (externDirOf ctx)) : gset string)
                   ∪ dirs fs = dirs fs).
  { intros Hall. apply subseteq_union_1_L. intros d Hd.
    apply Hall, list_elem_of_In. by apply elem_of_list_to_set in Hd. }
  destruct (tsickleLoader_path E ctx source fs) as
    [Hc | code Hc Hfault | Hc Hfault Hout | cfg Hc Hfault Hout Hds
     | cfg Hc Hfault Hout Hds Hsel
     | cfg key text Hc Hfault Hout Hds Hsel Hex
     | cfg key text extern Hc Hfault Hout Hds Hsel Hex];
    unfold diskOf; cbn [fst snd withDir withAppend dirs];
    (split; [|split]);
    first [ done | apply union_subseteq_r | exact Hsub ].
Qed.

(** ** Selection *)

Lemma selectOutput_Some (sourceFileAsJs : string) (jsFiles : JsMap.t)
    (key text : string) :
  selectOutput sourceFileAsJs jsFiles = Some (key, text) ->
  exists before after,
    jsFiles = before ++ (key, text) :: after /\
    JsString.occursIn key sourceFileAsJs /\
    forall entry, In entry before ->
                  ~ JsString.occursIn entry.1 sourceFileAsJs.
Proof.
  unfold selectOutput.
  induction jsFiles as [|[k v] jsFiles IH]; [discriminate|].
  cbn [find fst].
  destruct (JsString.indexOf sourceFileAsJs k =? -1) eqn:Hk; cbn [negb].
  - intros Hfind. destruct (IH Hfind) as (before & after & -> & Hkey & Hb).
    exists ((k, v) :: before), after. repeat split; [done|].
    intros entry [<-|Hin]; [by apply indexOf_eqb_true | by apply Hb].
  - intros Hfind. injection Hfind as -> ->.
    exists [], jsFiles. repeat split; [by apply indexOf_eqb_false|].
    intros entry [].
Qed.

(** X11. Code is returned in one way only: when an invocation returns code,
    the diagnostic set was empty and the code is [fixCode] of the text of an
    entry of [codeByPath] whose key occurs in the expected path, no entry
    before it having such a key. *)
Theorem X11_returned_code_is_first_match (E : Externals) (ctx : LoaderCTX)
    (source : string) (fs : FileSystem) (cfg : OptionsFromSchema E)
    (fs1 : FileSystem) (t1 : list Event) (code : string) :
  setup E ctx fs = (Ok cfg, fs1, t1) ->
  outcomeOf (tsickleLoader E ctx source fs) = Ok (Some code) ->
  diagnosticsOf E ctx cfg fs1 = [] /\
  exists before key text after,
    codeByPath E ctx cfg fs1 = before ++ (key, text) :: after /\
    JsString.occursIn key (tsToJS E (sourceFileNameOf ctx)) /\
    (forall entry, In entry before ->
       ~ JsString.occursIn entry.1 (tsToJS E (sourceFileNameOf ctx))) /\
    code = fixCode E text.
Proof.
  intros Hs Hcode.
  destruct (diagnosticsOf E ctx cfg fs1) as [|d ds] eqn:Hds.
  - split; [done|].
    rewrite (tsickleLoader_emit _ _ source _ _ _ _ Hs Hds) in Hcode.
    unfold sourceFileAsJsOf in Hcode.
    destruct (selectOutput _ _) as [[key text]|] eqn:Hsel.
    + destruct (selectOutput_Some _ _ _ _ Hsel)
        as (before & after & Hmap & Hkey & Hbefore).
      exists before, key, text, after. repeat split; try done.
      cbn [loopOutcome] in Hcode.
      destruct (externs _ !! jsToTS E key);
        unfold outcomeOf in Hcode; cbn [fst] in Hcode; congruence.
    + discriminate Hcode.
  - assert (Hne : diagnosticsOf E ctx cfg fs1 <> []) by by rewrite Hds.
    rewrite (tsickleLoader_gate _ _ source _ _ _ _ Hs Hne) in Hcode.
    discriminate Hcode.
Qed.

Lemma X11_returned_code_is_first_match_witness :
  diagnosticsOf (Demo.externals "") Demo.ctx (Demo.options "")
    (withDir "dist/externs" Demo.diskMapped) = [] /\
  exists before key text after,
    codeByPath (Demo.externals "") Demo.ctx (Demo.options "")
      (withDir "dist/externs" Demo.diskMapped)
    = before ++ (key, text) :: after /\
    JsString.occursIn key "/proj/src/a.js" /\
    (forall entry, In entry before ->
       ~ JsString.occursIn entry.1 "/proj/src/a.js") /\
    "/*code*/export const a = 1; // @map"%string = Demo.markCode text.
Proof.
  apply (X11_returned_code_is_first_match (Demo.externals "") Demo.ctx ""
           Demo.diskMapped (Demo.options "")
           (withDir "dist/externs" Demo.diskMapped) Demo.setupTrace).
  - apply Demo_setup.
  - vm_compute. reflexivity.
Defined.

(** ** The [writeFile] sink *)

Section Sink.

Lemma set_keys (m : JsMap.t) (k v x : string) :
  In x (map fst (JsMap.set m k v)) -> x = k \/ In x (map fst m).
Proof.
  induction m as [|[k' v'] m IH]; cbn.
  - intros [<-|[]]. by left.
  - destruct (String.eqb k' k); cbn.
    + intros [<-|Hin]; [right; by left | right; by right].
    + intros [<-|Hin]; [right; by left|].
      destruct (IH Hin) as [->|Hin']; [by left | right; by right].
Qed.

Lemma set_NoDup (m : JsMap.t) (k v : string) :
  NoDup (map fst m) -> NoDup (map fst (JsMap.set m k v)).
Proof.
  induction m as [|[k' v'] m IH]; cbn.
  - intros _. apply NoDup_cons_2; [apply not_elem_of_nil | apply NoDup_nil_2].
  - intros Hnd. apply NoDup_cons in Hnd as [Hk' Hnd].
    destruct (String.eqb k' k) eqn:Hk; cbn.
    + by apply NoDup_cons_2.
    + apply NoDup_cons_2; [|by apply IH].
      rewrite list_elem_of_In. intros Hin.
      destruct (set_keys _ _ _ _ Hin) as [->|Hin'].
      * by rewrite String.eqb_refl in Hk.
      * apply Hk'. by apply list_elem_of_In.
Qed.

Lemma key_of_entry (m : JsMap.t) (p c : string) :
  In (p, c) m -> p ∈ map fst m.
Proof.
  intros Hin. apply list_elem_of_In, in_map_iff. by exists (p, c).
Qed.

Lemma set_In (m : JsMap.t) (k v p c : string) :
  NoDup (map fst m) ->
  In (p, c) (JsMap.set m k v) <->
  if String.eqb k p then c = v else In (p, c) m.
Proof.
  induction m as [|[k' v'] m IH]; cbn.
  - intros _. destruct (String.eqb_spec k p) as [->|Hne].
    + split; [intros [H|[]]; congruence | intros ->; by left].
    + split; [intros [H|[]]; congruence | done].
  - intros Hnd. apply NoDup_cons in Hnd as [Hk' Hnd].
    destruct (String.eqb_spec k' k) as [->|Hk]; cbn.
    + destruct (String.eqb_spec k p) as [->|Hne].
      * split; [|intros ->; by left].
        intros [H|Hin]; [congruence|].
        destruct Hk'. by apply (key_of_entry m p c).
      * split; (intros [H|Hin]; [congruence | by right]).
    + rewrite (IH Hnd). destruct (String.eqb_spec k p) as [->|Hne].
      * split; [intros [H|H]; [congruence | done] | by right].
      * done.
Qed.

Lemma writtenFiles_NoDup (cbs : list EmitCallback) (m : JsMap.t) :
  NoDup (map fst m) -> NoDup (map fst (writtenFiles cbs m)).
Proof.
  revert m. induction cbs as [|[path contents|w] cbs IH]; intros m Hnd;
    cbn [writtenFiles]; [done | | by apply IH].
  apply IH. by apply set_NoDup.
Qed.

Lemma writtenFiles_In (cbs : list EmitCallback) (m : JsMap.t)
    (p c : string) :
  NoDup (map fst m) ->
  In (p, c) (writtenFiles cbs m) <->
  match lastWrite cbs p with
  | Some last => c = last
  | None => In (p, c) m
  end.
Proof.
  revert m. induction cbs as [|[path contents|w] cbs IH]; intros m Hnd;
    cbn [writtenFiles lastWrite]; [done | | by apply IH].
  rewrite (IH _ (set_NoDup m path contents Hnd)).
  destruct (lastWrite cbs p) as [last|]; [done|].
  rewrite (set_In m path contents p c Hnd).
  by destruct (String.eqb path p).
Qed.

End Sink.

(** X12. No two entries of [codeByPath] have the same key: writing a path
    again replaces the entry, it does not add one. *)
Theorem X12_codeByPath_keys_distinct (E : Externals) (ctx : LoaderCTX)
    (cfg : OptionsFromSchema E) (fs1 : FileSystem) :
  NoDup (map fst (codeByPath E ctx cfg fs1)).
Proof. apply writtenFiles_NoDup. apply NoDup_nil_2. Qed.

(** X13. The last write wins: [codeByPath] holds an entry for a path exactly
    when the transformer wrote that path, and its text is what the last
    [writeFile] call for that path passed. *)
Theorem X13_last_write_wins (E : Externals) (ctx : LoaderCTX)
    (cfg : OptionsFromSchema E) (fs1 : FileSystem) (path contents : string) :
  In (path, contents) (codeByPath E ctx cfg fs1) <->
  lastWrite (callbacks (outputOf E ctx cfg fs1)) path = Some contents.
Proof.
  unfold codeByPath. rewrite writtenFiles_In by apply NoDup_nil_2.
  destruct (lastWrite _ path) as [last|]; cbn; [|by split].
  split; congruence.
Qed.

(** ** The source path *)

Section SourcePath.

Import JsString.

Lemma prefix_single (b c : Ascii.ascii) (s : string) :
  String.prefix (String b EmptyString) (String c s) = true <-> b = c.
Proof.
  rewrite prefix_true_iff. split.
  - intros [post H]. by injection H.
  - intros ->. by exists s.
Qed.

Lemma occursIn_single_cons (b c : Ascii.ascii) (s : string) :
  occursIn (String b EmptyString) (String c s) <->
  b = c \/ occursIn (String b EmptyString) s.
Proof. by rewrite occursIn_cons, prefix_single. Qed.

Lemma occursIn_single_empty (b : Ascii.ascii) :
  ~ occursIn (String b EmptyString) EmptyString.
Proof. rewrite occursIn_empty. discriminate. Qed.

Lemma replaceBackslashes_clean (s : string) :
  ~ occursIn (String backslash EmptyString) (replaceBackslashes s).
Proof.
  induction s as [|c s IH]; cbn [replaceBackslashes].
  - apply occursIn_single_empty.
  - rewrite occursIn_single_cons. intros [H|H]; [|done].
    destruct (Ascii.eqb_spec c backslash) as [->|Hne];
      [discriminate H | by apply Hne].
Qed.

Lemma replaceBackslashes_id (s : string) :
  ~ occursIn (String backslash EmptyString) s -> replaceBackslashes s = s.
Proof.
  induction s as [|c s IH]; [done|].
  rewrite occursIn_single_cons. intros Hno. cbn [replaceBackslashes].
  destruct (Ascii.eqb_spec c backslash) as [->|Hne].
  - destruct Hno. by left.
  - rewrite IH; [done|]. intros H. apply Hno. by right.
Qed.

End SourcePath.

(** X14. The source file name the loader works with holds no backslash,
    whatever the resource path of the host is. *)
Theorem X14_sourceFileName_has_no_backslash (ctx : LoaderCTX) :
  JsString.indexOf (sourceFileNameOf ctx)
                   (String JsString.backslash EmptyString) = -1.
Proof.
  apply Z.eqb_eq, indexOf_eqb_true, replaceBackslashes_clean.
Qed.

(** X15. The resource path is taken as it is exactly when it holds no
    backslash. *)
Theorem X15_sourceFileName_unchanged_iff (ctx : LoaderCTX) :
  sourceFileNameOf ctx = resourcePath ctx <->
  JsString.indexOf (resourcePath ctx)
                   (String JsString.backslash EmptyString) = -1.
Proof.
  rewrite <- Z.eqb_eq, indexOf_eqb_true. split.
  - intros <-. apply replaceBackslashes_clean.
  - apply replaceBackslashes_id.
Qed.

(** ** The externs file after an append *)

(** X16. When an invocation selects an entry for which the transformer
    produced an extern, the externs file afterwards reads as before (empty
    when it did not exist) followed by the fixed extern. *)
Theorem X16_extern_file_after_append (E : Externals) (ctx : LoaderCTX)
    (source : string) (fs : FileSystem) (cfg : OptionsFromSchema E)
    (fs1 : FileSystem) (t1 : list Event) (key text extern : string) :
  setup E ctx fs = (Ok cfg, fs1, t1) ->
  diagnosticsOf E ctx cfg fs1 = [] ->
  selectOutput (tsToJS E (sourceFileNameOf ctx)) (codeByPath E ctx cfg fs1)
  = Some (key, text) ->
  externs (outputOf E ctx cfg fs1) !! jsToTS E key = Some extern ->
  files (diskOf (tsickleLoader E ctx source fs)) !! externFile cfg
  = Some (default EmptyString (files fs !! externFile cfg)
          +:+ fixExtern E extern).
Proof.
  intros Hs Hds Hsel Hex.
  destruct (setup_trace_quiet E ctx fs cfg fs1 t1 Hs) as (_ & _ & _ & _ & Hf).
  rewrite (tsickleLoader_emit _ _ source _ _ _ _ Hs Hds).
  unfold sourceFileAsJsOf. rewrite Hsel. cbn [loopOutcome]. rewrite Hex.
  unfold diskOf. cbn [fst snd files]. by rewrite lookup_insert_eq, Hf.
Qed.

Lemma X16_extern_file_after_append_witness :
  files (diskOf (tsickleLoader (Demo.externals "") Demo.ctx "" Demo.diskClean))
    !! externFile (Demo.options "")
  = Some (default EmptyString
            (files Demo.diskClean !! externFile (Demo.options ""))
          +:+ Demo.markExtern "var exported;").
Proof.
  apply (X16_extern_file_after_append (Demo.externals "") Demo.ctx ""
           Demo.diskClean (Demo.options "")
           (withDir "dist/externs" Demo.diskClean) Demo.setupTrace
           "/proj/src/a.js" "export const a = 1;" "var exported;").
  - apply Demo_setup.
  - vm_compute. reflexivity.
  - vm_compute. reflexivity.
  - vm_compute. reflexivity.
Defined.
